(** * qbittorrent.Client: request dispatch, login and batch-target normalisation

    A shallow embedding of [qbittorrent/Client.py].  Python values are a small
    inductive universe, dictionaries are finite maps, and the methods of
    [Client] that talk to the network are state transformers over the client
    object and a transport that records every HTTP call it is asked to make. *)

From stdpp Require Import gmap strings list pretty.
From Equations Require Import Equations.
From Stdlib Require Import ZArith Ascii String Lia.

Set Warnings "-register-all".
Local Open Scope string_scope.
Local Open Scope Z_scope.

(** ** Python values *)

(** The values that flow through the client.  Floating point numbers and
    [bytes] objects are not part of the model; a timeout is a whole number of
    seconds, a pair of them, or [None]. *)
Inductive pyval : Type :=
| VNone
| VBool (b : bool)
| VInt (n : Z)
| VStr (s : string)
| VList (l : list pyval)
| VTuple (l : list pyval)
| VDict (d : gmap string pyval).

(** The exceptions the modelled methods can raise.  [HTTPError] is what
    [Response.raise_for_status] raises; it carries the status and the URL. *)
Inductive exn : Type :=
| WrongCredentials
| HTTPError (status : Z) (url : string)
| ValueError (msg : string)
| TypeError (msg : string)
| AttributeError.

Inductive outcome (A : Type) : Type :=
| Return (a : A)
| Raise (e : exn).
Arguments Return {A} a.
Arguments Raise {A} e.

Definition obind {A B} (o : outcome A) (k : A -> outcome B) : outcome B :=
  match o with
  | Return a => k a
  | Raise e => Raise e
  end.

(** [[f(x) for x in l]] where [f] may raise: the first exception wins. *)
Fixpoint omap {A B} (f : A -> outcome B) (l : list A) : outcome (list B) :=
  match l with
  | [] => Return []
  | x :: l' => obind (f x) (fun y => obind (omap f l') (fun ys => Return (y :: ys)))
  end.

(** ** Strings *)

(** [str] is read as a sequence of code points below 256.  On those,
    [str.lower] moves [A-Z] and the Latin-1 capitals (0xC0-0xDE except the
    multiplication sign 0xD7) up by 32 and leaves the rest alone. *)
Definition chr_lower (c : ascii) : ascii :=
  let n := N_of_ascii c in
  if ((65 <=? n) && (n <=? 90) || (192 <=? n) && (n <=? 222) && negb (n =? 215))%N
  then ascii_of_N (n + 32)
  else c.

Fixpoint str_lower (s : string) : string :=
  match s with
  | EmptyString => EmptyString
  | String c s' => String (chr_lower c) (str_lower s')
  end.

(** [sep.join(l)] *)
Definition str_join (sep : string) (l : list string) : string :=
  String.concat sep l.

(** [s.endswith(suffix)]: some tail of [s] is [suffix]. *)
Fixpoint str_endswith (s suffix : string) : bool :=
  String.eqb s suffix ||
  match s with
  | EmptyString => false
  | String _ s' => str_endswith s' suffix
  end.

(** [v.lower()]: only [str] has the method. *)
Definition py_lower (v : pyval) : outcome string :=
  match v with
  | VStr s => Return (str_lower s)
  | _ => Raise AttributeError
  end.

(** [isinstance(v, int)]; [bool] is a subclass of [int]. *)
Definition isinstance_int (v : pyval) : bool :=
  match v with
  | VInt _ | VBool _ => true
  | _ => false
  end.

(** [v == n] for an integer literal [n]: [True == 1] and [False == 0]. *)
Definition py_eq_int (v : pyval) (n : Z) : bool :=
  match v with
  | VInt m => m =? n
  | VBool b => (if b then 1 else 0) =? n
  | _ => false
  end.

(** [v in [n1, n2, ...]] *)
Definition py_in_ints (v : pyval) (ns : list Z) : bool :=
  existsb (py_eq_int v) ns.

(** No character of [s] is the pipe. *)
Fixpoint pipe_free (s : string) : bool :=
  match s with
  | EmptyString => true
  | String c s' => negb (Ascii.eqb c "|") && pipe_free s'
  end.

(** The values of the model that have no method [lower]: [None], [bool],
    [int], [list], [tuple] and [dict]. *)
Definition has_no_lower (v : pyval) : bool :=
  match v with
  | VNone | VBool _ | VInt _ | VList _ | VTuple _ | VDict _ => true
  | VStr _ => false
  end.

(** A link [download_from_link] can send: anything that is not a list, or a
    list of strings. *)
Definition link_accepted (link : pyval) : bool :=
  match link with
  | VList l => forallb (fun v => match v with VStr _ => true | _ => false end) l
  | _ => true
  end.

(** [isinstance(v, str)] *)
Definition isinstance_str (v : pyval) : bool :=
  match v with
  | VStr _ => true
  | _ => false
  end.

(** [bool(v)]: [None], [False], zero and the empty containers are false. *)
Definition py_truthy (v : pyval) : bool :=
  match v with
  | VNone => false
  | VBool b => b
  | VInt n => negb (n =? 0)
  | VStr s => negb (String.eqb s "")
  | VList l | VTuple l => negb (Nat.eqb (List.length l) 0)
  | VDict d => negb (Nat.eqb (size d) 0)
  end.

(** [d.get(k)]: [None] for a missing key. *)
Definition dict_get (d : gmap string pyval) (k : string) : pyval :=
  default VNone (d !! k).

(** The line feed, written ["\n"] in the source. *)
Definition newline : string := String "010"%char EmptyString.

(** What [str.join] asks of each item: it has to be a [str].  The message of
    the error is shortened. *)
Definition py_str_item (v : pyval) : outcome string :=
  match v with
  | VStr s => Return s
  | _ => Raise (TypeError "sequence item: expected str instance")
  end.

(** [json.dumps] on a [bool]. *)
Definition json_dumps_bool (b : bool) : string :=
  if b then "true" else "false".

(** [["torrents%s" % i]] for the index [i] of [enumerate]. *)
Definition torrents_key (i : nat) : string := "torrents" ++ pretty i.

(** ** The transport *)

(** [Session.get] and [Session.post] *)
Inductive verb : Type := GET | POST.

(** One call handed to [requests]: the session that sends it, the URL, the
    [data] argument ([VNone] when there is none) and the remaining keyword
    arguments (verify, timeout, params, files, ...). *)
Record http_call : Type := mk_call {
  call_session : nat;
  call_verb : verb;
  call_url : string;
  call_data : pyval;
  call_kwargs : gmap string pyval
}.

(** What comes back: the status code and the body as text.  [_request] sets
    the encoding to UTF-8 before it reads the text; the text here is the body
    as the method reads it. *)
Record response : Type := mk_response {
  status_code : Z;
  text : string
}.

(** The remote service: it answers a call knowing the calls made before. *)
Definition server : Type := list http_call -> http_call -> response.

(** The transport keeps the calls in the order they were made and counts the
    [requests.Session()] objects created so far. *)
Record transport : Type := mk_transport {
  calls : list http_call;
  sessions_made : nat
}.

(** [Response.raise_for_status]: 4xx and 5xx raise. *)
Definition raise_for_status (url : string) (r : response) : outcome unit :=
  if (400 <=? status_code r) && (status_code r <? 600)
  then Raise (HTTPError (status_code r) url)
  else Return tt.

(** ** The client *)

Module Client.

(** The attributes [__init__] sets on [self]. *)
Record t : Type := mk {
  _username : string;
  _password : string;
  _url : string;
  _verify : bool;
  _timeout : pyval;
  _max_attempts_on_403 : Z;
  _session : option nat;
  _is_authenticated : bool
}.

Definition set_session (self : t) (s : option nat) : t :=
  mk (_username self) (_password self) (_url self) (_verify self)
     (_timeout self) (_max_attempts_on_403 self) s (_is_authenticated self).

Definition set_username (self : t) (value : string) : t :=
  mk value (_password self) (_url self) (_verify self)
     (_timeout self) (_max_attempts_on_403 self) (_session self)
     (_is_authenticated self).

Definition set_password (self : t) (value : string) : t :=
  mk (_username self) value (_url self) (_verify self)
     (_timeout self) (_max_attempts_on_403 self) (_session self)
     (_is_authenticated self).

(** A method runs on the object and the transport, and leaves both behind
    whether it returns or raises. *)
Definition state : Type := t * transport.
Definition M (A : Type) : Type := state -> outcome A * state.

Definition ret {A} (a : A) : M A := fun st => (Return a, st).
Definition raise {A} (e : exn) : M A := fun st => (Raise e, st).
Definition bind {A B} (m : M A) (k : A -> M B) : M B :=
  fun st =>
    match m st with
    | (Return a, st') => k a st'
    | (Raise e, st') => (Raise e, st')
    end.
Definition lift {A} (o : outcome A) : M A := fun st => (o, st).
Definition get_self : M t := fun st => (Return (fst st), st).
Definition put_self (self : t) : M unit := fun st => (Return tt, (self, snd st)).

Notation "x <- m ;; k" := (bind m (fun x => k))
  (at level 100, m at next level, right associativity).
Notation "m ;;; k" := (bind m (fun _ => k))
  (at level 100, right associativity).

(** Keeps the equation of a match in scope, for the recursion below. *)
Definition inspect {A} (a : A) : {b : A | a = b} := exist _ a eq_refl.

(** [requests.Session()]: a new session, told apart by its number. *)
Definition new_session : M nat :=
  fun st =>
    let n := sessions_made (snd st) in
    (Return n, (fst st, mk_transport (calls (snd st)) (S n))).

(** ** Batch-target normalisation *)

(** [_process_infohash_list] *)
Definition _process_infohash_list (infohash_list : pyval)
  : outcome (gmap string pyval) :=
  match infohash_list with
  | VList l =>
      obind (omap py_lower l) (fun hs =>
      Return {[ "hashes" := VStr (str_join "|" hs) ]})
  | _ =>
      obind (py_lower infohash_list) (fun h =>
      Return {[ "hashes" := VStr h ]})
  end.


(** ** Login and dispatch *)

(** The call [login] posts from a client whose fresh session is [sid]. *)
Definition login_call (self : t) (sid : nat) : http_call :=
  mk_call sid POST (_url self ++ "auth/login")
    (VDict (<["username" := VStr (_username self)]>
            (<["password" := VStr (_password self)]> ∅)))
    {[ "verify" := VBool (_verify self) ]}.

Section WithServer.

Variable srv : server.
(** [json.loads]; [None] stands for the [ValueError] it raises. *)
Variable json_loads : string -> option pyval.

(** [session.get(url, **kwargs)] / [session.post(url, data, **kwargs)]:
    the call is recorded and answered.  [None] has neither method. *)
Definition session_send (session : option nat) (v : verb) (url : string)
    (data : pyval) (kwargs : gmap string pyval) : M response :=
  fun st =>
    match session with
    | None => (Raise AttributeError, st)
    | Some sid =>
        let c := mk_call sid v url data kwargs in
        (Return (srv (calls (snd st)) c),
         (fst st, mk_transport (calls (snd st) ++ [c]) (sessions_made (snd st))))
    end.

(** [Client.login] *)
Definition login : M unit :=
  sid <- new_session ;;
  self <- get_self ;;
  put_self (set_session self (Some sid)) ;;;
  self <- get_self ;;
  login <- session_send (_session self) POST (_url self ++ "auth/login")
             (VDict (<["username" := VStr (_username self)]>
                     (<["password" := VStr (_password self)]> ∅)))
             {[ "verify" := VBool (_verify self) ]} ;;
  if String.eqb (text login) "Ok." then ret tt
  else raise WrongCredentials.

(** The tail of [Client._request], once the response is not retried.
    [json.loads("{}")] is outside the [try], so its error would propagate. *)
Definition decode_response (url : string) (request : response) : outcome pyval :=
  obind (raise_for_status url request) (fun _ =>
  if (String.length (text request) =? 0)%nat then
    match json_loads "{}" with
    | Some v => Return v
    | None => Raise (ValueError "json")
    end
  else
    match json_loads (text request) with
    | Some data => Return data
    | None => Return (VStr (text request))
    end).

(** The head of [Client._request]: build the URL, set the two keyword
    arguments, send. *)
Definition request_kwargs (self : t) (kwargs : gmap string pyval)
  : gmap string pyval :=
  <["timeout" := _timeout self]> (<["verify" := VBool (_verify self)]> kwargs).

(** The call one attempt of [_request] hands to the session [sid]. *)
Definition request_call (self : t) (sid : nat) (endpoint method : string)
    (data : pyval) (kwargs : gmap string pyval) : http_call :=
  if String.eqb method "get"
  then mk_call sid GET (_url self ++ endpoint) VNone (request_kwargs self kwargs)
  else mk_call sid POST (_url self ++ endpoint) data (request_kwargs self kwargs).

Definition send_request (endpoint method : string) (data : pyval)
    (kwargs : gmap string pyval) : M response :=
  self <- get_self ;;
  let final_url := _url self ++ endpoint in
  let kwargs := request_kwargs self kwargs in
  if String.eqb method "get"
  then session_send (_session self) GET final_url VNone kwargs
  else session_send (_session self) POST final_url data kwargs.

(** [Client._request].  The recursion is the source's: a 403 answered while
    [attempt <= self._max_attempts_on_403] logs in again and calls
    [_request] with [attempt + 1].  It ends because the maximum does not
    change and [attempt] grows; the interpreter's own limit on the depth of
    recursion is not modelled. *)
Equations? _request (endpoint method : string) (data : pyval) (attempt : Z)
    (kwargs : gmap string pyval) (st : state) : outcome pyval * state
  by wf (Z.to_nat (_max_attempts_on_403 (fst st) + 1 - attempt)) lt :=
  _request endpoint method data attempt kwargs st
    with inspect (send_request endpoint method data kwargs st) := {
    | exist _ (Raise e, st1) _ => (Raise e, st1)
    | exist _ (Return request, st1) Hsend
        with inspect ((status_code request =? 403)
                      && (attempt <=? _max_attempts_on_403 (fst st1))) := {
        | exist _ true Hretry with inspect (login st1) := {
            | exist _ (Return _, st2) Hlogin =>
                _request endpoint method data (attempt + 1)
                         (request_kwargs (fst st) kwargs) st2
            | exist _ (Raise e, st2) _ => (Raise e, st2) }
        | exist _ false _ =>
            (decode_response (_url (fst st) ++ endpoint) request, st1) } }.
Proof.
  assert (Hmax1 : _max_attempts_on_403 (fst st1) = _max_attempts_on_403 (fst st)).
  { destruct st as [self tr].
    unfold send_request, bind, get_self, session_send in Hsend; simpl in Hsend.
    destruct (String.eqb method "get"), (_session self);
      inversion Hsend; reflexivity. }
  assert (Hmax2 : _max_attempts_on_403 (fst st2) = _max_attempts_on_403 (fst st1)).
  { destruct st1 as [self tr].
    unfold login, bind, new_session, get_self, put_self, session_send, ret, raise
      in Hlogin; simpl in Hlogin.
    destruct (String.eqb _ "Ok."); inversion Hlogin; reflexivity. }
  apply andb_prop in Hretry as [_ Hle]. apply Z.leb_le in Hle. lia.
Defined.

(** [Client._get] and [Client._post]; [attempt] takes its default. *)
Definition _get (endpoint : string) (kwargs : gmap string pyval) : M pyval :=
  _request endpoint "get" VNone 0 kwargs.

Definition _post (endpoint : string) (data : pyval)
    (kwargs : gmap string pyval) : M pyval :=
  _request endpoint "post" data 0 kwargs.

(** [Client.__init__]: the attributes are set, then [login] runs on them.
    When [login] raises, so does the constructor. *)
Definition init_url (url : string) : string :=
  let url := if negb (str_endswith url "/") then url ++ "/" else url in
  url ++ "api/v2/".

Definition init_self (url username password : string) (verify : bool)
    (timeout : pyval) (max_attempts_on_403 : Z) : t :=
  mk username password (init_url url) verify timeout max_attempts_on_403
     None false.

Definition __init__ (url username password : string) (verify : bool)
    (timeout : pyval) (max_attempts_on_403 : Z) (net : transport)
  : outcome unit * state :=
  login (init_self url username password verify timeout max_attempts_on_403,
         net).

(** The [username] and [password] setters and [Client.update_credentials]. *)
Definition username_setter (value : string) : M unit :=
  self <- get_self ;;
  put_self (set_username self value) ;;;
  login.

Definition password_setter (value : string) : M unit :=
  self <- get_self ;;
  put_self (set_password self value) ;;;
  login.

Definition update_credentials (username password : string) : M unit :=
  self <- get_self ;;
  put_self (set_password (set_username self username) password) ;;;
  login.

(** [Client.set_file_priority] *)
Definition set_file_priority (infohash file_id priority : pyval) : M pyval :=
  if negb (py_in_ints priority [0; 1; 2; 4; 6; 7]) then
    raise (ValueError "Invalid priority, refer WEB-UI docs for info.")
  else if negb (isinstance_int file_id) then
    raise (TypeError "File ID must be an int")
  else
    h <- lift (py_lower infohash) ;;
    let data := VDict (<["hash" := VStr h]>
                       (<["id" := file_id]>
                        (<["priority" := priority]> ∅))) in
    _post "torrents/filePrio" data ∅.

(** *** Commands on one torrent *)

(** [Client.get_torrent] *)
Definition get_torrent (infohash : pyval) : M pyval :=
  h <- lift (py_lower infohash) ;;
  _get ("torrents/properties?hash=" ++ h) ∅.

(** [Client.pause] *)
Definition pause (infohash : pyval) : M pyval :=
  h <- lift (py_lower infohash) ;;
  _post "torrents/pause" (VDict {[ "hashes" := VStr h ]}) ∅.

(** [Client.pause_all] *)
Definition pause_all : M pyval :=
  _post "torrents/pause" (VDict {[ "hashes" := VStr "all" ]}) ∅.

(** *** Commands on a batch target *)

(** [Client.pause_multiple] *)
Definition pause_multiple (infohash_list : pyval) : M pyval :=
  data <- lift (_process_infohash_list infohash_list) ;;
  _post "torrents/pause" (VDict data) ∅.

(** [Client.set_category] *)
Definition set_category (infohash_list category : pyval) : M pyval :=
  data <- lift (_process_infohash_list infohash_list) ;;
  let data := <["category" := category]> data in
  _post "torrents/setCategory" (VDict data) ∅.

(** [Client._delete]; the callers below pass it a [bool]. *)
Definition _delete (infohash_list : pyval) (delete_files : bool) : M pyval :=
  data <- lift (_process_infohash_list infohash_list) ;;
  let data := <["deleteFiles" := VStr (json_dumps_bool delete_files)]> data in
  _post "torrents/delete" (VDict data) ∅.

(** [Client.delete], [delete_all], [delete_permanently] and
    [delete_all_permanently] *)
Definition delete (infohash_list : pyval) : M pyval :=
  _delete infohash_list false.

Definition delete_all : M pyval := _delete (VStr "all") false.

Definition delete_permanently (infohash_list : pyval) : M pyval :=
  _delete infohash_list true.

Definition delete_all_permanently : M pyval := _delete (VStr "all") true.

(** *** Listing and adding torrents *)

(** The loop of [Client.torrents]: the keyword arguments are taken in the
    order they were given, and the old name [status] is stored as [filter]. *)
Definition filter_name (name : string) : string :=
  if String.eqb name "status" then "filter" else name.

Definition torrents_params (filters : list (string * pyval))
  : gmap string pyval :=
  fold_left (fun params '(name, value) =>
               let name := filter_name name in
               <[name := value]> params)
            filters ∅.

(** [Client.torrents] *)
Definition torrents (filters : list (string * pyval)) : M pyval :=
  _get "torrents/info" {[ "params" := VDict (torrents_params filters) ]}.

(** The table of renamed options in [Client.download_from_link]. *)
Definition old_arg_map : list (string * string) := [("save_path", "savepath")].

(** The body of [Client.download_from_link] before it posts: the options
    with the old names carried over and [urls] set. *)
Definition download_from_link_options (link : pyval)
    (kwargs : gmap string pyval) : outcome (gmap string pyval) :=
  let options :=
    fold_left (fun options '(old_arg, new_arg) =>
                 if py_truthy (dict_get options old_arg)
                    && negb (py_truthy (dict_get options new_arg))
                 then <[new_arg := dict_get options old_arg]> options
                 else options)
              old_arg_map kwargs in
  match link with
  | VList l =>
      obind (omap py_str_item l) (fun items =>
      Return (<["urls" := VStr (str_join newline items)]> options))
  | _ => Return (<["urls" := link]> options)
  end.

(** [Client.download_from_link] *)
Definition download_from_link (link : pyval) (kwargs : gmap string pyval)
  : M pyval :=
  options <- lift (download_from_link_options link kwargs) ;;
  let dummy_file : gmap string pyval :=
    {[ "_dummy" := VTuple [VNone; VStr "_dummy"] ]} in
  _post "torrents/add" (VDict options) {[ "files" := VDict dummy_file ]}.

(** The loop of [Client.download_from_file] over [enumerate(file_buffer)],
    from index [i] on. *)
Fixpoint update_torrent_files (i : nat) (file_buffer : list pyval)
    (torrent_files : gmap string pyval) : gmap string pyval :=
  match file_buffer with
  | [] => torrent_files
  | f :: rest =>
      update_torrent_files (S i) rest (<[torrents_key i := f]> torrent_files)
  end.

Definition download_from_file_files (file_buffer : pyval)
  : gmap string pyval :=
  match file_buffer with
  | VList l => update_torrent_files 0 l ∅
  | _ => {[ "torrents" := file_buffer ]}
  end.

Definition download_from_file_data (kwargs : gmap string pyval)
  : gmap string pyval :=
  if py_truthy (dict_get kwargs "save_path")
  then <["savepath" := dict_get kwargs "save_path"]> kwargs
  else kwargs.

(** [Client.download_from_file] *)
Definition download_from_file (file_buffer : pyval)
    (kwargs : gmap string pyval) : M pyval :=
  let torrent_files := download_from_file_files file_buffer in
  let data := download_from_file_data kwargs in
  _post "torrents/add" (VDict data) {[ "files" := VDict torrent_files ]}.

End WithServer.

End Client.


(** ** Observing a run *)

Import Client.

(** How many of the recorded calls went to [url]. *)
Definition count_url (url : string) (l : list http_call) : nat :=
  List.length (filter (fun c => call_url c = url) l).

(** A call is one of the two kinds [_request] can cause: an attempt at the
    endpoint, carrying the configured timeout and verify flag, or a login. *)
Definition dispatched (self : t) (endpoint : string) (c : http_call) : Prop :=
  (call_url c = _url self ++ endpoint /\
   call_kwargs c !! "timeout" = Some (_timeout self) /\
   call_kwargs c !! "verify" = Some (VBool (_verify self))) \/
  (exists sid, c = login_call self sid).

(** The calls one dispatch can add to the record, when it starts on session
    [sid] with [m] sessions made so far and [budget] retries left: a lone
    attempt; an attempt and a login that was refused; or an attempt, a login
    and the calls of the retry, which runs on the session the login made.
    The last two indices are the session held and the sessions made at the
    end. *)
Inductive run_shape (self : t) (endpoint method : string) (data : pyval)
  : gmap string pyval -> nat -> nat -> nat -> list http_call ->
    nat -> nat -> Prop :=
| run_last kwargs sid m budget :
    run_shape self endpoint method data kwargs sid m budget
      [request_call self sid endpoint method data kwargs] sid m
| run_refused kwargs sid m budget :
    run_shape self endpoint method data kwargs sid m (S budget)
      [request_call self sid endpoint method data kwargs; login_call self m]
      m (S m)
| run_retry kwargs sid m budget rest sid' m' :
    run_shape self endpoint method data (request_kwargs self kwargs) m (S m)
      budget rest sid' m' ->
    run_shape self endpoint method data kwargs sid m (S budget)
      (request_call self sid endpoint method data kwargs
         :: login_call self m :: rest) sid' m'.

(** Sessions are numbered in the order they are made: every recorded call,
    and the session the client holds, has a number below the count. *)
Definition sessions_numbered (st : state) : Prop :=
  Forall (fun c => (call_session c < sessions_made (snd st))%nat)
         (calls (snd st)) /\
  (forall sid, _session (fst st) = Some sid ->
               (sid < sessions_made (snd st))%nat).

(** ** Stub servers *)

(** A parser that knows two documents, enough to run the client on. *)
Definition toy_loads (s : string) : option pyval :=
  if String.eqb s "{}" then Some (VDict ∅)
  else if String.eqb s "[]" then Some (VList [])
  else None.

(** The service at http://h: it accepts every login, or none. *)
Definition accept_all : server := fun _ _ => mk_response 200 "Ok.".
Definition refuse_all : server := fun _ _ => mk_response 200 "Fails.".

(** It accepts every login and answers 403 to everything else. *)
Definition forbid_always : server :=
  fun _ c =>
    if String.eqb (call_url c) "http://h/api/v2/auth/login"
    then mk_response 200 "Ok."
    else mk_response 403 "Forbidden".

(** It accepts every login, answers 403 to the first [N] requests for the
    version and the version string to the later ones. *)
Definition forbid_first (N : nat) : server :=
  fun h c =>
    if String.eqb (call_url c) "http://h/api/v2/auth/login"
    then mk_response 200 "Ok."
    else if (count_url "http://h/api/v2/app/version" h <? N)%nat
         then mk_response 403 "Forbidden"
         else mk_response 200 "v4.3.2".

(** It accepts the password "secret" and no other. *)
Definition knows_secret : server :=
  fun _ c =>
    match call_data c with
    | VDict d =>
        match d !! "password" with
        | Some (VStr p) =>
            if String.eqb p "secret" then mk_response 200 "Ok."
            else mk_response 200 "Fails."
        | _ => mk_response 200 "Fails."
        end
    | _ => mk_response 200 "Fails."
    end.

(** It accepts the pair "root" / "secret" and no other. *)
Definition knows_pair : server :=
  fun _ c =>
    match call_data c with
    | VDict d =>
        match d !! "username", d !! "password" with
        | Some (VStr u), Some (VStr p) =>
            if String.eqb u "root" && String.eqb p "secret"
            then mk_response 200 "Ok."
            else mk_response 200 "Fails."
        | _, _ => mk_response 200 "Fails."
        end
    | _ => mk_response 200 "Fails."
    end.

(** It accepts every login and answers everything else with status 404. *)
Definition not_found : server :=
  fun _ c =>
    if String.eqb (call_url c) "http://h/api/v2/auth/login"
    then mk_response 200 "Ok."
    else mk_response 404 "Not Found".

(** It accepts the constructor's login, answers 403 to everything else and
    refuses every later login. *)
Definition expire_and_refuse : server :=
  fun h c =>
    if String.eqb (call_url c) "http://h/api/v2/auth/login"
    then match h with
         | [] => mk_response 200 "Ok."
         | _ => mk_response 200 "Fails."
         end
    else mk_response 403 "Forbidden".

(** It accepts the constructor's login and refuses every later one; it
    answers 403 to the first request for the version and the version string
    to the later ones. *)
Definition forbid_once_and_refuse : server :=
  fun h c =>
    if String.eqb (call_url c) "http://h/api/v2/auth/login"
    then match h with
         | [] => mk_response 200 "Ok."
         | _ => mk_response 200 "Fails."
         end
    else if (count_url "http://h/api/v2/app/version" h <? 1)%nat
         then mk_response 403 "Forbidden"
         else mk_response 200 "v4.3.2".

(** [Client("http://h", "admin", "secret", timeout=5)] on a transport that has
    sent nothing yet. *)
Definition stub_state (srv : server) : state :=
  snd (__init__ srv "http://h" "admin" "secret" true (VInt 5) 3
                (mk_transport [] 0)).

(** * Properties *)

(** ** One step of each method *)

Lemma raise_for_status_ok (url : string) (r : response) :
  ~ (400 <= status_code r < 600) -> raise_for_status url r = Return tt.
Proof.
  intros H. unfold raise_for_status.
  destruct (Z.leb_spec 400 (status_code r)); [|reflexivity].
  destruct (Z.ltb_spec (status_code r) 600); [lia | reflexivity].
Qed.

Lemma raise_for_status_error (url : string) (r : response) :
  400 <= status_code r < 600 ->
  raise_for_status url r = Raise (HTTPError (status_code r) url).
Proof.
  intros [H1 H2]. unfold raise_for_status.
  apply Z.leb_le in H1. apply Z.ltb_lt in H2. rewrite H1, H2. reflexivity.
Qed.

Section Steps.

Variable srv : server.
Variable json_loads : string -> option pyval.

Lemma login_run self net :
  login srv (self, net) =
  let sid := sessions_made net in
  let c := login_call self sid in
  (if String.eqb (text (srv (calls net) c)) "Ok."
   then Return tt else Raise WrongCredentials,
   (set_session self (Some sid),
    mk_transport (calls net ++ [c]) (S sid))).
Proof.
  unfold login, bind, new_session, get_self, put_self, session_send; simpl.
  unfold login_call; simpl.
  destruct (String.eqb _ "Ok."); reflexivity.
Qed.

Lemma send_request_run self net sid endpoint method data kwargs :
  _session self = Some sid ->
  send_request srv endpoint method data kwargs (self, net) =
  let c := request_call self sid endpoint method data kwargs in
  (Return (srv (calls net) c),
   (self, mk_transport (calls net ++ [c]) (sessions_made net))).
Proof.
  intros Hs. unfold send_request, request_call, bind, get_self, session_send.
  simpl. rewrite Hs. destruct (String.eqb method "get"); reflexivity.
Qed.

Lemma send_request_no_session self net endpoint method data kwargs :
  _session self = None ->
  send_request srv endpoint method data kwargs (self, net) =
  (Raise AttributeError, (self, net)).
Proof.
  intros Hs. unfold send_request, bind, get_self, session_send.
  simpl. rewrite Hs. destruct (String.eqb method "get"); reflexivity.
Qed.

Lemma request_call_url self sid endpoint method data kwargs :
  call_url (request_call self sid endpoint method data kwargs)
  = _url self ++ endpoint.
Proof. unfold request_call. destruct (String.eqb method "get"); reflexivity. Qed.

Lemma request_call_kwargs self sid endpoint method data kwargs :
  call_kwargs (request_call self sid endpoint method data kwargs)
  = request_kwargs self kwargs.
Proof. unfold request_call. destruct (String.eqb method "get"); reflexivity. Qed.

Lemma _request_unfold endpoint method data attempt kwargs st :
  _request srv json_loads endpoint method data attempt kwargs st =
  match send_request srv endpoint method data kwargs st with
  | (Raise e, st1) => (Raise e, st1)
  | (Return request, st1) =>
      if (status_code request =? 403)
         && (attempt <=? _max_attempts_on_403 (fst st1))
      then match login srv st1 with
           | (Return _, st2) =>
               _request srv json_loads endpoint method data (attempt + 1)
                        (request_kwargs (fst st) kwargs) st2
           | (Raise e, st2) => (Raise e, st2)
           end
      else (decode_response json_loads (_url (fst st) ++ endpoint) request, st1)
  end.
Proof.
  funelim (_request srv json_loads endpoint method data attempt kwargs st);
    repeat match goal with
    | H : send_request _ _ _ _ _ _ = _ |- _ => rewrite H
    | H : andb _ _ = _ |- _ => rewrite H
    | H : login _ _ = _ |- _ => rewrite H
    end; reflexivity.
Qed.

(** A 403 inside the retry budget, answered by a login that succeeds:
    [_request] goes round once more. *)
Lemma _request_retry self net sid endpoint method data attempt kwargs :
  _session self = Some sid ->
  let c := request_call self sid endpoint method data kwargs in
  let lc := login_call self (sessions_made net) in
  status_code (srv (calls net) c) = 403 ->
  attempt <= _max_attempts_on_403 self ->
  text (srv (calls net ++ [c])%list lc) = "Ok." ->
  _request srv json_loads endpoint method data attempt kwargs (self, net) =
  _request srv json_loads endpoint method data (attempt + 1)
    (request_kwargs self kwargs)
    (set_session self (Some (sessions_made net)),
     mk_transport ((calls net ++ [c]) ++ [lc]) (S (sessions_made net))).
Proof.
  intros Hs c lc H403 Hle Hok.
  rewrite _request_unfold, (send_request_run _ _ sid) by assumption.
  cbv beta iota zeta. fold c. rewrite H403. simpl fst.
  replace (attempt <=? _max_attempts_on_403 self) with true
    by (symmetry; apply Z.leb_le; assumption).
  simpl andb. cbv iota. rewrite login_run.
  cbv beta iota zeta. simpl calls. simpl sessions_made.
  fold lc. rewrite Hok. reflexivity.
Qed.

(** Any other answer ends the call: it is decoded and returned. *)
Lemma _request_done self net sid endpoint method data attempt kwargs :
  _session self = Some sid ->
  let c := request_call self sid endpoint method data kwargs in
  (status_code (srv (calls net) c) =? 403)
    && (attempt <=? _max_attempts_on_403 self) = false ->
  _request srv json_loads endpoint method data attempt kwargs (self, net) =
  (decode_response json_loads (_url self ++ endpoint) (srv (calls net) c),
   (self, mk_transport (calls net ++ [c]) (sessions_made net))).
Proof.
  intros Hs c Hc.
  rewrite _request_unfold, (send_request_run _ _ sid) by assumption.
  cbv beta iota zeta. fold c. simpl fst. rewrite Hc. reflexivity.
Qed.

(** [_get] and [_post] are [_request] started at attempt 0. *)
Remark dispatch_starts_at_zero endpoint data kwargs :
  _get srv json_loads endpoint kwargs
  = _request srv json_loads endpoint "get" VNone 0 kwargs /\
  _post srv json_loads endpoint data kwargs
  = _request srv json_loads endpoint "post" data 0 kwargs.
Proof. split; reflexivity. Qed.

(** [update_credentials] replaces both fields and logs in once with them. *)
Lemma update_credentials_run username password self net :
  update_credentials srv username password (self, net)
  = login srv (set_password (set_username self username) password, net).
Proof. reflexivity. Qed.

End Steps.

(** ** Lower-casing and joining *)

Lemma chr_lower_upper (c : ascii) :
  (65 <= N_of_ascii c <= 90)%N ->
  N_of_ascii (chr_lower c) = (N_of_ascii c + 32)%N.
Proof.
  destruct c as [[] [] [] [] [] [] [] []]; vm_compute; intros [H1 H2];
    first [reflexivity | exfalso; apply H1; reflexivity
          | exfalso; apply H2; reflexivity].
Qed.

Lemma chr_lower_idem (c : ascii) : chr_lower (chr_lower c) = chr_lower c.
Proof. destruct c as [[] [] [] [] [] [] [] []]; reflexivity. Qed.

Lemma str_lower_idem (s : string) : str_lower (str_lower s) = str_lower s.
Proof. induction s as [|c s IH]; simpl; [|rewrite chr_lower_idem, IH]; reflexivity. Qed.

Lemma str_lower_empty (s : string) : str_lower s = "" <-> s = "".
Proof. destruct s; simpl; split; intros H; try reflexivity; discriminate H. Qed.

Lemma omap_py_lower_strs (l : list string) :
  omap py_lower (VStr <$> l) = Return (str_lower <$> l).
Proof.
  induction l as [|s l IH]; [reflexivity|].
  rewrite !fmap_cons. cbn [omap py_lower obind]. rewrite IH. reflexivity.
Qed.

Lemma omap_py_lower_inv (l : list pyval) (hs : list string) :
  omap py_lower l = Return hs ->
  exists ss : list string, l = VStr <$> ss /\ hs = str_lower <$> ss.
Proof.
  revert hs. induction l as [|v l IH]; simpl; intros hs H.
  - exists []. inversion H. split; reflexivity.
  - destruct v; simpl in H; try discriminate H.
    destruct (omap py_lower l) as [ys|e]; simpl in H; [|discriminate H].
    destruct (IH ys eq_refl) as (ss & -> & ->).
    exists (s :: ss). inversion H. split; reflexivity.
Qed.

Lemma append_empty (a b : string) : a ++ b = "" -> a = "" /\ b = "".
Proof.
  destruct a; [intros H; split; [reflexivity | exact H] | discriminate].
Qed.

Lemma str_join_empty (sep : string) (l : list string) :
  sep <> "" -> (str_join sep l = "" <-> l = [] \/ l = [""]).
Proof.
  intros Hsep. unfold str_join. split.
  - destruct l as [|x [|y l]]; simpl; intros H.
    + left; reflexivity.
    + right; rewrite H; reflexivity.
    + exfalso. apply append_empty in H as [_ H].
      apply append_empty in H as [H _]. contradiction.
  - intros [-> | ->]; reflexivity.
Qed.

Lemma Return_inj {A} (a b : A) : Return a = Return b -> a = b.
Proof. intros H. injection H as H. exact H. Qed.

Lemma hashes_singleton_inj (a b : pyval) :
  ({[ "hashes" := a ]} : gmap string pyval) = {[ "hashes" := b ]} -> a = b.
Proof.
  intros H. apply (f_equal (fun m => m !! "hashes")) in H.
  rewrite !lookup_singleton_eq in H. congruence.
Qed.

(** C6.  The normaliser returns the single field [hashes]: a string is
    lower-cased, a list of strings is lower-cased element by element and
    joined with the pipe character, so that ["AB12"; "cd34"] gives
    "ab12|cd34", and the sentinel "all" comes back as "all". *)
Theorem process_infohash_list_value :
  (forall s : string,
      _process_infohash_list (VStr s)
      = Return {[ "hashes" := VStr (str_lower s) ]}) /\
  (forall l : list string,
      _process_infohash_list (VList (VStr <$> l))
      = Return {[ "hashes" := VStr (str_join "|" (str_lower <$> l)) ]}) /\
  _process_infohash_list (VList [VStr "AB12"; VStr "cd34"])
  = Return {[ "hashes" := VStr "ab12|cd34" ]} /\
  _process_infohash_list (VStr "all") = Return {[ "hashes" := VStr "all" ]}.
Proof.
  split; [|split; [|split]].
  - intros s. reflexivity.
  - intros l. unfold _process_infohash_list.
    rewrite omap_py_lower_strs. reflexivity.
  - reflexivity.
  - reflexivity.
Qed.

(** C5, as the code has it.  The empty list and the empty string are both
    taken, and both normalise to the empty string. *)
Lemma process_infohash_list_empty_value :
  _process_infohash_list (VList []) = Return {[ "hashes" := VStr "" ]} /\
  _process_infohash_list (VStr "") = Return {[ "hashes" := VStr "" ]}.
Proof. split; reflexivity. Qed.

(** C5, amended.  Whenever the normaliser returns, the wire value is the empty
    string exactly for the empty string, the empty list and the list holding
    only the empty string; every other input gives a non-empty value. *)
Theorem process_infohash_list_nonempty (v : pyval) (w : string) :
  _process_infohash_list v = Return {[ "hashes" := VStr w ]} ->
  w = "" <-> (v = VStr "" \/ v = VList [] \/ v = VList [VStr ""]).
Proof.
  intros H. unfold _process_infohash_list in H.
  destruct v; try (cbv [py_lower obind] in H; discriminate H).
  - cbv [py_lower obind] in H. apply Return_inj, hashes_singleton_inj in H. injection H as <-.
    rewrite str_lower_empty. split.
    + intros ->. left; reflexivity.
    + intros [H | [H | H]]; try discriminate H. injection H as ->. reflexivity.
  - destruct (omap py_lower l) as [hs|e] eqn:Hl; cbv [obind] in H;
      [|discriminate H].
    apply omap_py_lower_inv in Hl as (ss & -> & ->).
    apply Return_inj, hashes_singleton_inj in H. injection H as <-.
    rewrite str_join_empty by discriminate. split.
    + intros [Hs | Hs].
      * right; left. destruct ss; [reflexivity | discriminate Hs].
      * right; right. destruct ss as [|s [|? ?]]; try discriminate Hs.
        rewrite fmap_cons in Hs. injection Hs as Hs.
        apply (proj1 (str_lower_empty s)) in Hs. rewrite Hs. reflexivity.
    + intros [H | [H | H]]; try discriminate H.
      * left. destruct ss; [reflexivity | discriminate H].
      * right. destruct ss as [|s [|? ?]]; try discriminate H.
        injection H as ->. reflexivity.
Qed.

Lemma process_infohash_list_nonempty_witness :
  "ab12" = "" <->
  (VStr "AB12" = VStr "" \/ VStr "AB12" = VList [] \/ VStr "AB12" = VList [VStr ""]).
Proof. apply (process_infohash_list_nonempty (VStr "AB12") "ab12"). reflexivity. Defined.

(** ** Login *)

Section Login.

Variable srv : server.

(** C4.  Login returns exactly when the body of the answer is the string
    "Ok."; with any other body it raises [WrongCredentials], whatever the
    status code of the answer is. *)
Theorem login_succeeds_iff_ok (self : t) (net : transport) :
  let r := srv (calls net) (login_call self (sessions_made net)) in
  (fst (login srv (self, net)) = Return tt <-> text r = "Ok.") /\
  (text r <> "Ok." ->
   fst (login srv (self, net)) = Raise WrongCredentials).
Proof.
  intros r. rewrite login_run. cbv zeta. fold r. simpl fst.
  destruct (String.eqb (text r) "Ok.") eqn:E.
  - apply String.eqb_eq in E. split; [split; auto | intros H; contradiction].
  - apply String.eqb_neq in E. split; [split; [discriminate | contradiction] |].
    reflexivity.
Qed.

(** What one run of [login] does to the client: the stored session is
    replaced by a fresh one before the answer is read, and no other attribute
    is written. *)
Lemma login_session_effect (self : t) (net : transport) :
  let sid := sessions_made net in
  let r := srv (calls net) (login_call self sid) in
  let out := login srv (self, net) in
  fst (snd out) = set_session self (Some sid) /\
  _session (fst (snd out)) = Some sid /\
  _is_authenticated (fst (snd out)) = _is_authenticated self /\
  sessions_made (snd (snd out)) = S sid /\
  calls (snd (snd out)) = (calls net ++ [login_call self sid])%list /\
  fst out = if String.eqb (text r) "Ok." then Return tt
            else Raise WrongCredentials.
Proof.
  intros sid r out. subst out. rewrite login_run. cbv zeta.
  repeat split.
Qed.

End Login.

(** C3, as the code has it.  A client constructed with the right password is
    logged in on session 0 and its authenticated flag is still false.  Setting
    a wrong password then raises [WrongCredentials], and the client holds
    session 1 afterwards: not its previous session, and not [None]. *)
Lemma login_leaves_session_and_flag :
  let constructed :=
    __init__ knows_secret "http://h" "admin" "secret" true (VInt 5) 3
             (mk_transport [] 0) in
  let changed := password_setter knows_secret "wrong" (snd constructed) in
  (fst constructed = Return tt /\
   _session (fst (snd constructed)) = Some 0%nat /\
   _is_authenticated (fst (snd constructed)) = false) /\
  (fst changed = Raise WrongCredentials /\
   _session (fst (snd changed)) = Some 1%nat).
Proof. repeat split. Qed.

(** ** Decoding a response *)

Section Decode.

Variable srv : server.
Variable json_loads : string -> option pyval.

(** C7.  When the answer to a call has a status outside 400..599, the call
    returns: the empty dictionary for an empty body, the parsed value when the
    body parses, and the body itself as a string when it does not. *)
Theorem request_decodes_success (self : t) (net : transport) (sid : nat)
    (endpoint method : string) (data : pyval) (attempt : Z)
    (kwargs : gmap string pyval) :
  _session self = Some sid ->
  json_loads "{}" = Some (VDict ∅) ->
  let r := srv (calls net)
               (request_call self sid endpoint method data kwargs) in
  let res := fst (_request srv json_loads endpoint method data attempt kwargs
                           (self, net)) in
  ~ (400 <= status_code r < 600) ->
  (text r = "" -> res = Return (VDict ∅)) /\
  (forall v, text r <> "" -> json_loads (text r) = Some v -> res = Return v) /\
  (text r <> "" -> json_loads (text r) = None -> res = Return (VStr (text r))).
Proof.
  intros Hs Hjson r res Hst. subst res.
  rewrite (_request_done srv json_loads self net sid) by
    (try assumption; fold r; apply andb_false_iff; left;
     apply Z.eqb_neq; lia).
  fold r. simpl fst. unfold decode_response.
  rewrite raise_for_status_ok by exact Hst. cbv [obind].
  destruct (text r) as [|c s] eqn:Ht.
  - simpl. rewrite Hjson. repeat split; intros; congruence.
  - change (String.length (String c s) =? 0)%nat with false. cbv iota.
    repeat split; try discriminate.
    + intros v _ ->. reflexivity.
    + intros _ ->. reflexivity.
Qed.

End Decode.

Lemma request_decodes_success_witness :
  fst (_request (forbid_first 0) toy_loads "app/version" "get" VNone 0 ∅
                (stub_state (forbid_first 0)))
  = Return (VStr "v4.3.2").
Proof.
  apply (request_decodes_success (forbid_first 0) toy_loads
           (fst (stub_state (forbid_first 0)))
           (snd (stub_state (forbid_first 0))) 0%nat
           "app/version" "get" VNone 0 ∅).
  - reflexivity.
  - reflexivity.
  - simpl. lia.
  - discriminate.
  - reflexivity.
Defined.

(** ** Local validation *)

Section Validation.

Variable srv : server.
Variable json_loads : string -> option pyval.

(** C9.  A priority that is not one of 0, 1, 2, 4, 6, 7 raises [ValueError]
    and leaves the client and the transport as they were: nothing was sent.
    Whenever the transport did record a call, the priority was one of the six
    and the file id was an [int]. *)
Theorem set_file_priority_fails_fast (infohash file_id priority : pyval)
    (st : state) :
  let out := set_file_priority srv json_loads infohash file_id priority st in
  (py_in_ints priority [0; 1; 2; 4; 6; 7] = false ->
   out = (Raise (ValueError "Invalid priority, refer WEB-UI docs for info."),
          st)) /\
  (calls (snd (snd out)) <> calls (snd st) ->
   py_in_ints priority [0; 1; 2; 4; 6; 7] = true /\
   isinstance_int file_id = true).
Proof.
  intros out. subst out. unfold set_file_priority. split.
  - intros ->. reflexivity.
  - destruct (py_in_ints priority [0; 1; 2; 4; 6; 7]);
      [|intros H; exfalso; apply H; reflexivity].
    destruct (isinstance_int file_id);
      [|intros H; exfalso; apply H; reflexivity].
    intros _. split; reflexivity.
Qed.

(** The test on the priority, read on integers. *)
Lemma py_in_ints_priority (p : Z) :
  py_in_ints (VInt p) [0; 1; 2; 4; 6; 7] = false <->
  p <> 0 /\ p <> 1 /\ p <> 2 /\ p <> 4 /\ p <> 6 /\ p <> 7.
Proof.
  unfold py_in_ints, py_eq_int. simpl.
  rewrite !orb_false_iff, !Z.eqb_neq. tauto.
Qed.

End Validation.

Lemma set_file_priority_fails_fast_witness :
  set_file_priority accept_all toy_loads (VStr "AB12") (VInt 0) (VInt 3)
                    (stub_state accept_all)
  = (Raise (ValueError "Invalid priority, refer WEB-UI docs for info."),
     stub_state accept_all).
Proof.
  apply (set_file_priority_fails_fast accept_all toy_loads (VStr "AB12")
           (VInt 0) (VInt 3) (stub_state accept_all)).
  reflexivity.
Defined.

(** ** What a dispatch sends *)

Lemma set_session_same (self : t) : set_session self (_session self) = self.
Proof. destruct self; reflexivity. Qed.

Lemma request_kwargs_timeout self kwargs :
  request_kwargs self kwargs !! "timeout" = Some (_timeout self).
Proof. unfold request_kwargs. apply lookup_insert_eq. Qed.

Lemma request_kwargs_verify self kwargs :
  request_kwargs self kwargs !! "verify" = Some (VBool (_verify self)).
Proof.
  unfold request_kwargs. rewrite lookup_insert_ne by discriminate.
  apply lookup_insert_eq.
Qed.

Lemma login_call_no_timeout self sid :
  call_kwargs (login_call self sid) !! "timeout" = None.
Proof. unfold login_call; simpl. apply lookup_singleton_ne. discriminate. Qed.

Section Dispatch.

Variable srv : server.
Variable json_loads : string -> option pyval.

Lemma dispatched_request_call self sid endpoint method data kwargs :
  dispatched self endpoint (request_call self sid endpoint method data kwargs).
Proof.
  left. rewrite request_call_url, request_call_kwargs.
  auto using request_kwargs_timeout, request_kwargs_verify.
Qed.

(** Every run of [_request] only appends to the record of calls, changes no
    attribute but the session, and sends nothing but attempts and logins. *)
Lemma _request_sends (endpoint method : string) (data : pyval) (n : nat) :
  forall (attempt : Z) (kwargs : gmap string pyval) (self : t)
         (net : transport),
    Z.to_nat (_max_attempts_on_403 self + 1 - attempt) = n ->
    exists res s new m,
      _request srv json_loads endpoint method data attempt kwargs (self, net)
      = (res, (set_session self s, mk_transport (calls net ++ new) m)) /\
      Forall (dispatched self endpoint) new /\
      (forall sid, _session self = Some sid ->
         exists new',
           new = request_call self sid endpoint method data kwargs :: new').
Proof.
  induction n as [|n IH]; intros attempt kwargs self net Hn.
  all: rewrite _request_unfold.
  all: destruct (_session self) as [sid|] eqn:Hs;
    [rewrite (send_request_run srv self net sid) by assumption
    |rewrite send_request_no_session by assumption].
  all: cbv beta iota zeta; simpl fst.
  all: try (exists (Raise AttributeError), (_session self), [], (sessions_made net);
            rewrite set_session_same, app_nil_r; destruct net; split;
            [reflexivity | split; [constructor | intros ? [=]]]).
  all: set (c := request_call self sid endpoint method data kwargs).
  all: destruct ((status_code (srv (calls net) c) =? 403)
                 && (attempt <=? _max_attempts_on_403 self)) eqn:Hc.
  all: try (eexists _, (_session self), [c], (sessions_made net);
            rewrite set_session_same; split; [reflexivity|]; split;
            [constructor; [apply dispatched_request_call | constructor]
            |intros ? [= <-]; eexists; reflexivity]).
  - apply andb_prop in Hc as [_ Hle]. apply Z.leb_le in Hle. lia.
  - apply andb_prop in Hc as [_ Hle]. apply Z.leb_le in Hle.
    rewrite login_run. cbv beta iota zeta. simpl calls. simpl sessions_made.
    set (lc := login_call self (sessions_made net)).
    destruct (String.eqb (text (srv (calls net ++ [c])%list lc)) "Ok.").
    + destruct (IH (attempt + 1) (request_kwargs self kwargs)
                  (set_session self (Some (sessions_made net)))
                  (mk_transport ((calls net ++ [c]) ++ [lc])
                                (S (sessions_made net))))
        as (res & s & new & m & Heq & Hall & _).
      { simpl. lia. }
      exists res, s, (c :: lc :: new), m. split; [|split].
      * rewrite Heq. simpl. rewrite <- !app_assoc. reflexivity.
      * constructor; [apply dispatched_request_call|].
        constructor; [right; exists (sessions_made net); reflexivity|].
        exact Hall.
      * intros ? [= <-]. eexists; reflexivity.
    + exists (Raise WrongCredentials), (Some (sessions_made net)), [c; lc],
        (S (sessions_made net)). split; [|split].
      * rewrite <- app_assoc. reflexivity.
      * constructor; [apply dispatched_request_call|].
        constructor; [right; exists (sessions_made net); reflexivity|].
        constructor.
      * intros ? [= <-]. eexists; reflexivity.
Qed.

End Dispatch.

(** ** The base URL *)

Lemma str_app_assoc (a b c : string) : (a ++ b) ++ c = a ++ (b ++ c).
Proof.
  induction a as [|x a IH]; [reflexivity|].
  change (String x ((a ++ b) ++ c) = String x (a ++ (b ++ c))).
  rewrite IH. reflexivity.
Qed.

Lemma str_endswith_app (root suffix : string) :
  str_endswith (root ++ suffix) suffix = true.
Proof.
  induction root as [|x root IH].
  - change ("" ++ suffix) with suffix. destruct suffix; simpl;
      rewrite ?Ascii.eqb_refl, ?String.eqb_refl; reflexivity.
  - change (String x root ++ suffix) with (String x (root ++ suffix)).
    simpl. rewrite IH. apply orb_true_r.
Qed.

Lemma str_endswith_slash_inv (s : string) :
  str_endswith s "/" = true -> exists root, s = root ++ "/".
Proof.
  induction s as [|x s IH]; simpl; [discriminate|].
  intros H. apply orb_prop in H as [H | H].
  - exists "". change (String x s = "/"). apply String.eqb_eq. exact H.
  - destruct (IH H) as [root ->]. exists (String x root). reflexivity.
Qed.

(** Every base URL is a root followed by one slash, or a root that does not
    end in a slash. *)
Lemma url_root_cases (url : string) :
  exists root, url = root ++ "/" \/ (url = root /\ str_endswith root "/" = false).
Proof.
  destruct (str_endswith url "/") eqn:E.
  - destruct (str_endswith_slash_inv url E) as [root ->]. exists root. left.
    reflexivity.
  - exists url. right. split; [reflexivity | exact E].
Qed.

Lemma init_url_root (root url : string) :
  url = root ++ "/" \/ (url = root /\ str_endswith root "/" = false) ->
  init_url url = root ++ "/api/v2/".
Proof.
  unfold init_url. intros [-> | [-> E]].
  - rewrite str_endswith_app. simpl negb. cbv iota.
    rewrite str_app_assoc. reflexivity.
  - rewrite E. simpl negb. cbv iota. rewrite str_app_assoc. reflexivity.
Qed.

Section BaseUrl.

Variable srv : server.
Variable json_loads : string -> option pyval.

(** C10, amended.  Let the base URL end in at most one slash: it is [root],
    which does not end in a slash, with or without one slash after it.  A
    client constructed on it keeps [root ++ "/api/v2/"], and a dispatch to
    [endpoint] sends its first call to [root ++ "/api/v2/" ++ endpoint] and
    every later one there or to the login endpoint under the same prefix. *)
Theorem request_targets_api_url (root url username password : string)
    (verify : bool) (timeout : pyval) (max_attempts_on_403 : Z)
    (net net1 : transport) (self : t)
    (endpoint method : string) (data : pyval) (attempt : Z)
    (kwargs : gmap string pyval) :
  str_endswith root "/" = false ->
  url = root \/ url = root ++ "/" ->
  __init__ srv url username password verify timeout max_attempts_on_403 net
  = (Return tt, (self, net1)) ->
  _url self = root ++ "/api/v2/" /\
  exists c new,
    calls (snd (snd (_request srv json_loads endpoint method data attempt
                              kwargs (self, net1))))
    = (calls net1 ++ c :: new)%list /\
    call_url c = root ++ "/api/v2/" ++ endpoint /\
    Forall (fun c' => call_url c' = root ++ "/api/v2/" ++ endpoint \/
                      call_url c' = root ++ "/api/v2/" ++ "auth/login") new.
Proof.
  intros Hroot Hurl' Hinit.
  assert (Hurl : url = root ++ "/" \/
                 (url = root /\ str_endswith root "/" = false))
    by (destruct Hurl'; [right; split | left]; assumption).
  unfold __init__ in Hinit. rewrite login_run in Hinit.
  cbv zeta in Hinit.
  assert (Hself : self = set_session
            (init_self url username password verify timeout max_attempts_on_403)
            (Some (sessions_made net))) by congruence.
  assert (Hu : _url self = root ++ "/api/v2/").
  { rewrite Hself. simpl. apply init_url_root. exact Hurl. }
  split; [exact Hu|].
  destruct (_request_sends srv json_loads endpoint method data _ attempt kwargs
              self net1 eq_refl) as (res & s & new & m & Heq & Hall & Hfirst).
  destruct (Hfirst (sessions_made net)) as [new' ->].
  { rewrite Hself. reflexivity. }
  eexists _, new'. rewrite Heq. simpl. split; [reflexivity|].
  rewrite request_call_url, Hu, str_app_assoc. split; [reflexivity|].
  apply Forall_cons in Hall as [_ Hall].
  eapply Forall_impl; [exact Hall|]. intros c' [[Hc' _] | [sid ->]].
  - left. rewrite Hc', Hu, str_app_assoc. reflexivity.
  - right. unfold login_call; simpl. rewrite Hu, str_app_assoc. reflexivity.
Qed.

End BaseUrl.

(** ** The timeout *)

Section Timeout.

Variable srv : server.
Variable json_loads : string -> option pyval.

(** The attempts [_request] sends carry the configured timeout. *)
Lemma request_attempts_carry_timeout (endpoint method : string) (data : pyval)
    (attempt : Z) (kwargs : gmap string pyval) (self : t) (net : transport) :
  exists new,
    calls (snd (snd (_request srv json_loads endpoint method data attempt
                              kwargs (self, net))))
    = (calls net ++ new)%list /\
    Forall (fun c => call_kwargs c !! "timeout" = Some (_timeout self) \/
                     exists sid, c = login_call self sid) new.
Proof.
  destruct (_request_sends srv json_loads endpoint method data _ attempt kwargs
              self net eq_refl) as (res & s & new & m & Heq & Hall & _).
  exists new. rewrite Heq. split; [reflexivity|].
  eapply Forall_impl; [exact Hall|]. intros c [(_ & Ht & _) | Hl]; auto.
Qed.

End Timeout.

(** ** The retry loop *)

Lemma count_url_app (u : string) (l1 l2 : list http_call) :
  count_url u (l1 ++ l2) = (count_url u l1 + count_url u l2)%nat.
Proof. unfold count_url. rewrite filter_app, length_app. reflexivity. Qed.

Lemma count_url_cons_eq (u : string) (c : http_call) (l : list http_call) :
  call_url c = u -> count_url u (c :: l) = S (count_url u l).
Proof. intros H. unfold count_url. rewrite filter_cons_True by exact H. reflexivity. Qed.

Lemma count_url_cons_ne (u : string) (c : http_call) (l : list http_call) :
  call_url c <> u -> count_url u (c :: l) = count_url u l.
Proof. intros H. unfold count_url. rewrite filter_cons_False by exact H. reflexivity. Qed.

Lemma decode_response_forbidden json_loads (url : string) (r : response) :
  status_code r = 403 ->
  decode_response json_loads url r = Raise (HTTPError 403 url).
Proof.
  intros H. unfold decode_response.
  rewrite raise_for_status_error by lia. rewrite H. reflexivity.
Qed.

Lemma decode_response_returns json_loads (url : string) (r : response) :
  json_loads "{}" = Some (VDict ∅) ->
  ~ (400 <= status_code r < 600) ->
  exists v, decode_response json_loads url r = Return v.
Proof.
  intros Hjson Hst. unfold decode_response.
  rewrite raise_for_status_ok by exact Hst. cbv [obind]. destruct (String.length (text r) =? 0)%nat.
  - rewrite Hjson. eexists; reflexivity.
  - destruct (json_loads (text r)); eexists; reflexivity.
Qed.

Lemma decode_response_value json_loads (url : string) (r : response) :
  json_loads "{}" = Some (VDict ∅) ->
  ~ (400 <= status_code r < 600) ->
  exists v,
    decode_response json_loads url r = Return v /\
    (text r = "" -> v = VDict ∅) /\
    (forall v', text r <> "" -> json_loads (text r) = Some v' -> v = v') /\
    (text r <> "" -> json_loads (text r) = None -> v = VStr (text r)).
Proof.
  intros Hjson Hst. unfold decode_response.
  rewrite raise_for_status_ok by exact Hst. cbv [obind].
  destruct (text r) as [|c s] eqn:Ht.
  - simpl. rewrite Hjson. eexists. split; [reflexivity|].
    repeat split; intros; congruence.
  - change (String.length (String c s) =? 0)%nat with false. cbv iota.
    destruct (json_loads (String c s)) as [v|] eqn:Hj;
      (eexists; split; [reflexivity|]); repeat split; intros; congruence.
Qed.

Section Retry.

Variable srv : server.
Variable json_loads : string -> option pyval.
Variables endpoint method : string.
Variable data : pyval.
Variable self0 : t.

Local Abbreviation U := (_url self0 ++ endpoint).
Local Abbreviation L := (_url self0 ++ "auth/login").

Hypothesis endpoint_not_login : endpoint <> "auth/login".
Hypothesis login_accepted :
  forall h c, call_url c = L -> text (srv h c) = "Ok.".

Lemma login_url_differs : L <> U.
Proof.
  unfold L, U. intros H. apply (inj (String.app (_url self0))) in H.
  apply endpoint_not_login. symmetry. exact H.
Qed.

(** A server that answers every attempt with 403: the loop runs until
    [attempt] passes the maximum, with one login after each attempt but the
    last, and the last 403 is raised. *)
Lemma forbidden_loop :
  (forall h c, call_url c = U -> status_code (srv h c) = 403) ->
  forall (n : nat) (attempt : Z) (kwargs : gmap string pyval) (sid : nat)
         (net : transport),
    Z.to_nat (_max_attempts_on_403 self0 + 1 - attempt) = n ->
    exists s new m,
      _request srv json_loads endpoint method data attempt kwargs
               (set_session self0 (Some sid), net)
      = (Raise (HTTPError 403 U),
         (set_session self0 s, mk_transport (calls net ++ new) m)) /\
      count_url U new = S n /\ count_url L new = n.
Proof.
  intros H403. induction n as [|n IH]; intros attempt kwargs sid net Hn.
  - set (c := request_call (set_session self0 (Some sid)) sid endpoint method
                           data kwargs).
    assert (Hc : call_url c = U)
      by (unfold c; rewrite request_call_url; reflexivity).
    exists (Some sid), [c], (sessions_made net). split; [|split].
    + rewrite (_request_done srv json_loads _ net sid) by
        (try reflexivity; apply andb_false_iff; right; apply Z.leb_gt;
         simpl; lia).
      fold c. rewrite decode_response_forbidden by (apply H403; exact Hc).
      reflexivity.
    + rewrite count_url_cons_eq by exact Hc. reflexivity.
    + rewrite count_url_cons_ne by (rewrite Hc; apply not_eq_sym, login_url_differs).
      reflexivity.
  - set (self := set_session self0 (Some sid)).
    set (c := request_call self sid endpoint method data kwargs).
    set (lc := login_call self (sessions_made net)).
    assert (Hc : call_url c = U)
      by (unfold c; rewrite request_call_url; reflexivity).
    assert (Hlc : call_url lc = L) by reflexivity.
    destruct (IH (attempt + 1) (request_kwargs self kwargs) (sessions_made net)
                (mk_transport ((calls net ++ [c]) ++ [lc]) (S (sessions_made net))))
      as (s & new & m & Heq & HU & HL).
    { lia. }
    exists s, (c :: lc :: new), m. split; [|split].
    + rewrite (_request_retry srv json_loads self net sid).
      * fold c lc. change (set_session self (Some (sessions_made net)))
          with (set_session self0 (Some (sessions_made net))).
        rewrite Heq. simpl calls. rewrite <- !app_assoc. reflexivity.
      * reflexivity.
      * apply H403. exact Hc.
      * simpl. lia.
      * apply login_accepted. exact Hlc.
    + rewrite count_url_cons_eq by exact Hc.
      rewrite count_url_cons_ne by (rewrite Hlc; apply login_url_differs).
      rewrite HU. reflexivity.
    + rewrite count_url_cons_ne by (rewrite Hc; apply not_eq_sym, login_url_differs).
      rewrite count_url_cons_eq by exact Hlc.
      rewrite HL. reflexivity.
Qed.

(** C1, as the code has it.  Against a server that answers every attempt with
    403 and accepts every login, a dispatch raises the 403 after
    [Z.to_nat (max + 1) + 1] attempts, that is [max + 2] of them for a maximum
    that is not negative, with a login between any two. *)
Theorem request_forbidden_attempts (sid : nat) (net : transport)
    (kwargs : gmap string pyval) :
  _session self0 = Some sid ->
  (forall h c, call_url c = U -> status_code (srv h c) = 403) ->
  let out := _request srv json_loads endpoint method data 0 kwargs
                      (self0, net) in
  exists new,
    fst out = Raise (HTTPError 403 U) /\
    calls (snd (snd out)) = (calls net ++ new)%list /\
    count_url U new = S (Z.to_nat (_max_attempts_on_403 self0 + 1)) /\
    count_url L new = Z.to_nat (_max_attempts_on_403 self0 + 1).
Proof.
  intros Hs H403 out. subst out.
  destruct (forbidden_loop H403 _ 0 kwargs sid net eq_refl)
    as (s & new & m & Heq & HU & HL).
  rewrite <- Hs, set_session_same in Heq. rewrite Heq. exists new.
  rewrite Z.sub_0_r in HU, HL. repeat split; assumption.
Qed.

(** A server that answers the first [N] attempts with 403 and the next one
    with a status outside 400..599: the loop stops at that answer. *)
Lemma retry_loop (calls0 : list http_call) (N : nat) :
  (forall new c, call_url c = U -> (count_url U new < N)%nat ->
     status_code (srv (calls0 ++ new)%list c) = 403) ->
  (forall new c, call_url c = U -> count_url U new = N ->
     ~ (400 <= status_code (srv (calls0 ++ new)%list c) < 600)) ->
  forall (n : nat) (new : list http_call) (attempt : Z)
         (kwargs : gmap string pyval) (sid m : nat),
    (count_url U new + n)%nat = N ->
    attempt + Z.of_nat n <= _max_attempts_on_403 self0 + 1 ->
    exists s new' c m',
      _request srv json_loads endpoint method data attempt kwargs
               (set_session self0 (Some sid),
                mk_transport (calls0 ++ new) m)
      = (decode_response json_loads U (srv (calls0 ++ new ++ new')%list c),
         (set_session self0 s,
          mk_transport (calls0 ++ new ++ new' ++ [c]) m')) /\
      call_url c = U /\
      ~ (400 <= status_code (srv (calls0 ++ new ++ new')%list c) < 600) /\
      count_url U (new' ++ [c]) = S n /\ count_url L (new' ++ [c]) = n.
Proof.
  intros H403 Hok. induction n as [|n IH];
    intros new attempt kwargs sid m Hcount Hle.
  - set (self := set_session self0 (Some sid)).
    set (c := request_call self sid endpoint method data kwargs).
    assert (Hc : call_url c = U)
      by (unfold c; rewrite request_call_url; reflexivity).
    assert (Hst : ~ (400 <= status_code (srv (calls0 ++ new)%list c) < 600))
      by (apply Hok; [exact Hc | lia]).
    exists (Some sid), [], c, m. rewrite !app_nil_r. split; [|split; [|split; [|split]]].
    + rewrite (_request_done srv json_loads self _ sid) by
        (try reflexivity; apply andb_false_iff; left; apply Z.eqb_neq;
         simpl calls; fold c; lia).
      simpl calls. simpl sessions_made. fold c. rewrite <- app_assoc.
      reflexivity.
    + exact Hc.
    + exact Hst.
    + simpl. rewrite count_url_cons_eq by exact Hc. reflexivity.
    + simpl. rewrite count_url_cons_ne
        by (rewrite Hc; apply not_eq_sym, login_url_differs).
      reflexivity.
  - set (self := set_session self0 (Some sid)).
    set (c := request_call self sid endpoint method data kwargs).
    set (lc := login_call self m).
    assert (Hc : call_url c = U)
      by (unfold c; rewrite request_call_url; reflexivity).
    assert (Hlc : call_url lc = L) by reflexivity.
    destruct (IH (new ++ [c; lc])%list (attempt + 1)
                 (request_kwargs self kwargs) m (S m))
      as (s & new' & c' & m' & Heq & Hc' & Hst & HU & HL).
    { rewrite count_url_app, count_url_cons_eq by exact Hc.
      rewrite count_url_cons_ne by (rewrite Hlc; apply login_url_differs).
      unfold count_url at 2. simpl. lia. }
    { lia. }
    exists s, (c :: lc :: new'), c', m'. split; [|split; [|split; [|split]]].
    + rewrite (_request_retry srv json_loads self _ sid).
      * simpl calls. simpl sessions_made. fold c lc.
        change (set_session self (Some m)) with (set_session self0 (Some m)).
        replace (((calls0 ++ new) ++ [c]) ++ [lc])%list
          with (calls0 ++ new ++ [c; lc])%list
          by (rewrite <- !app_assoc; reflexivity).
        rewrite Heq. rewrite <- !app_assoc. reflexivity.
      * reflexivity.
      * simpl calls. fold c. apply H403; [exact Hc | lia].
      * simpl. lia.
      * apply login_accepted. exact Hlc.
    + exact Hc'.
    + rewrite <- !app_assoc in Hst. exact Hst.
    + simpl. rewrite count_url_cons_eq by exact Hc.
      rewrite count_url_cons_ne by (rewrite Hlc; apply login_url_differs).
      rewrite HU. reflexivity.
    + simpl. rewrite count_url_cons_ne
        by (rewrite Hc; apply not_eq_sym, login_url_differs).
      rewrite count_url_cons_eq by exact Hlc.
      rewrite HL. reflexivity.
Qed.

(** C2, amended.  Take a client that holds a session and an endpoint other
    than the login one.  Let the server answer the first [N] attempts with
    403, accept every login, and answer the next attempt with a status
    outside 400..599, with [N] below the maximum.  Then a dispatch sends
    exactly [N + 1] attempts and [N] logins, and returns the value of that
    last answer: the empty dictionary for an empty body, the parsed value
    when the body parses, the body itself when it does not. *)
Theorem request_retries_then_succeeds (N sid : nat) (net : transport)
    (kwargs : gmap string pyval) :
  _session self0 = Some sid ->
  Z.of_nat N < _max_attempts_on_403 self0 ->
  json_loads "{}" = Some (VDict ∅) ->
  (forall new c, call_url c = U -> (count_url U new < N)%nat ->
     status_code (srv (calls net ++ new)%list c) = 403) ->
  (forall new c, call_url c = U -> count_url U new = N ->
     ~ (400 <= status_code (srv (calls net ++ new)%list c) < 600)) ->
  let out := _request srv json_loads endpoint method data 0 kwargs
                      (self0, net) in
  exists new c v,
    calls (snd (snd out)) = (calls net ++ new ++ [c])%list /\
    count_url U (new ++ [c]) = S N /\
    count_url L (new ++ [c]) = N /\
    call_url c = U /\
    fst out = Return v /\
    let r := srv (calls net ++ new)%list c in
    (text r = "" -> v = VDict ∅) /\
    (forall v', text r <> "" -> json_loads (text r) = Some v' -> v = v') /\
    (text r <> "" -> json_loads (text r) = None -> v = VStr (text r)).
Proof.
  intros Hs HN Hjson H403 Hok out. subst out.
  destruct (retry_loop (calls net) N H403 Hok N [] 0 kwargs sid
              (sessions_made net))
    as (s & new & c & m & Heq & Hc & Hst & HU & HL).
  { reflexivity. }
  { lia. }
  rewrite app_nil_r, <- Hs, set_session_same in Heq.
  replace (mk_transport (calls net) (sessions_made net)) with net in Heq
    by (destruct net; reflexivity).
  simpl app in Heq, Hst.
  destruct (decode_response_value json_loads U _ Hjson Hst)
    as (v & Hv & Hempty & Hparsed & Hraw).
  exists new, c, v. rewrite Heq, Hv. simpl.
  repeat split; assumption.
Qed.

End Retry.

(** ** Runs against the stub servers *)

Example lower_example : str_lower "AB12cd" = "ab12cd".
Proof. reflexivity. Qed.

Example init_example :
  fst (__init__ accept_all "http://h" "admin" "secret" true (VInt 5) 3
                (mk_transport [] 0)) = Return tt /\
  _url (fst (stub_state accept_all)) = "http://h/api/v2/" /\
  _session (fst (stub_state accept_all)) = Some 0%nat.
Proof. repeat split. Qed.

(** With the default maximum of 3, a server that always answers 403 is asked
    five times, not four, and logged into four times. *)
Lemma request_forbidden_attempts_witness :
  let out := _request forbid_always toy_loads "app/version" "get" VNone 0 ∅
                      (stub_state forbid_always) in
  exists new,
    fst out = Raise (HTTPError 403 "http://h/api/v2/app/version") /\
    calls (snd (snd out))
    = (calls (snd (stub_state forbid_always)) ++ new)%list /\
    count_url "http://h/api/v2/app/version" new = 5%nat /\
    count_url "http://h/api/v2/auth/login" new = 4%nat.
Proof.
  refine (request_forbidden_attempts forbid_always toy_loads
            "app/version" "get" VNone (fst (stub_state forbid_always))
            _ _ 0%nat (snd (stub_state forbid_always)) ∅ _ _).
  - discriminate.
  - intros h c Hc. unfold forbid_always. rewrite Hc. reflexivity.
  - reflexivity.
  - intros h c Hc. unfold forbid_always. rewrite Hc. reflexivity.
Defined.

Lemma request_retries_then_succeeds_witness :
  let out := _request (forbid_first 2) toy_loads "app/version" "get" VNone 0 ∅
                      (stub_state (forbid_first 2)) in
  fst out = Return (VStr "v4.3.2") /\
  exists new c,
    calls (snd (snd out))
    = (calls (snd (stub_state (forbid_first 2))) ++ new ++ [c])%list /\
    count_url "http://h/api/v2/app/version" (new ++ [c]) = 3%nat /\
    count_url "http://h/api/v2/auth/login" (new ++ [c]) = 2%nat.
Proof.
  cbv zeta.
  unshelve epose proof
    (request_retries_then_succeeds (forbid_first 2) toy_loads
       "app/version" "get" VNone (fst (stub_state (forbid_first 2)))
       _ _ 2%nat 0%nat (snd (stub_state (forbid_first 2))) ∅ _ _ _ _ _)
    as (new & c & v & Hcalls & HU & HL & Hc & Hout & _ & _ & Hraw).
  - discriminate.
  - intros h c Hc. unfold forbid_first. rewrite Hc. reflexivity.
  - reflexivity.
  - simpl. lia.
  - reflexivity.
  - intros new c Hc Hlt.
    change (call_url c = "http://h/api/v2/app/version") in Hc.
    change (count_url "http://h/api/v2/app/version" new < 2)%nat in Hlt.
    change (status_code
              (forbid_first 2
                 (login_call (fst (stub_state (forbid_first 2))) 0 :: new) c)
            = 403).
    unfold forbid_first. rewrite Hc, count_url_cons_ne by discriminate.
    apply Nat.ltb_lt in Hlt. rewrite Hlt. reflexivity.
  - intros new c Hc Heq.
    change (call_url c = "http://h/api/v2/app/version") in Hc.
    change (count_url "http://h/api/v2/app/version" new = 2%nat) in Heq.
    change (~ (400 <= status_code
                 (forbid_first 2
                    (login_call (fst (stub_state (forbid_first 2))) 0 :: new) c)
               < 600)).
    unfold forbid_first. rewrite Hc, count_url_cons_ne by discriminate.
    rewrite Heq. simpl. lia.
  - change (call_url c = "http://h/api/v2/app/version") in Hc.
    change (count_url "http://h/api/v2/app/version" (new ++ [c]) = 3%nat)
      in HU.
    change (count_url "http://h/api/v2/auth/login" (new ++ [c]) = 2%nat)
      in HL.
    assert (Hnew : count_url "http://h/api/v2/app/version" new = 2%nat).
    { rewrite count_url_app, count_url_cons_eq in HU by exact Hc.
      unfold count_url at 2 in HU. simpl in HU. lia. }
    assert (Hr : forbid_first 2
                   (calls (snd (stub_state (forbid_first 2))) ++ new)%list c
                 = mk_response 200 "v4.3.2").
    { change (calls (snd (stub_state (forbid_first 2))))
        with [login_call (fst (stub_state (forbid_first 2))) 0].
      simpl app. unfold forbid_first.
      rewrite Hc, count_url_cons_ne by discriminate.
      rewrite Hnew. reflexivity. }
    change (_request (forbid_first 2) toy_loads "app/version" "get" VNone 0 ∅
              (fst (stub_state (forbid_first 2)),
               snd (stub_state (forbid_first 2))))
      with (_request (forbid_first 2) toy_loads "app/version" "get" VNone 0 ∅
              (stub_state (forbid_first 2))) in Hout, Hcalls.
    cbv zeta in Hraw. rewrite Hr in Hraw. simpl text in Hraw.
    rewrite Hout, (Hraw ltac:(discriminate) eq_refl).
    split; [reflexivity|]. exists new, c. repeat split; assumption.
Defined.

(** C2, as the code has it.  This server answers the first attempt with 403
    and every later one with 200, so it meets the claim at [N = 1], below the
    maximum of 3; but it refuses the re-login.  The dispatch then stops with
    [WrongCredentials] after one attempt and one login: there is no second
    attempt and no value is returned. *)
Lemma retry_stops_at_refused_login :
  let srv := forbid_once_and_refuse in
  let st := stub_state srv in
  let out := _request srv toy_loads "app/version" "get" VNone 0 ∅ st in
  (forall new c,
     call_url c = "http://h/api/v2/app/version" ->
     (count_url "http://h/api/v2/app/version" new < 1)%nat ->
     status_code (srv (calls (snd st) ++ new)%list c) = 403) /\
  (forall new c,
     call_url c = "http://h/api/v2/app/version" ->
     (1 <= count_url "http://h/api/v2/app/version" new)%nat ->
     status_code (srv (calls (snd st) ++ new)%list c) = 200) /\
  1 < _max_attempts_on_403 (fst st) /\
  fst out = Raise WrongCredentials /\
  exists new,
    calls (snd (snd out)) = (calls (snd st) ++ new)%list /\
    count_url "http://h/api/v2/app/version" new = 1%nat /\
    count_url "http://h/api/v2/auth/login" new = 1%nat.
Proof.
  cbv zeta. split; [|split; [|split; [|split]]].
  - intros new c Hc Hlt.
    change (calls (snd (stub_state forbid_once_and_refuse)))
      with [login_call (fst (stub_state forbid_once_and_refuse)) 0].
    simpl app. unfold forbid_once_and_refuse.
    rewrite Hc, count_url_cons_ne by discriminate.
    apply Nat.ltb_lt in Hlt. rewrite Hlt. reflexivity.
  - intros new c Hc Hge.
    change (calls (snd (stub_state forbid_once_and_refuse)))
      with [login_call (fst (stub_state forbid_once_and_refuse)) 0].
    simpl app. unfold forbid_once_and_refuse.
    rewrite Hc, count_url_cons_ne by discriminate.
    apply Nat.ltb_ge in Hge. rewrite Hge. reflexivity.
  - reflexivity.
  - reflexivity.
  - eexists. split; [reflexivity|]. split; reflexivity.
Qed.

(** C8, as the code has it.  A client configured with a timeout of 5 seconds
    logs in from its constructor with a call that carries the verify flag and
    no timeout. *)
Theorem login_call_without_timeout :
  let out := __init__ accept_all "http://h" "admin" "secret" true (VInt 5) 3
                      (mk_transport [] 0) in
  fst out = Return tt /\
  _timeout (fst (snd out)) = VInt 5 /\
  exists c,
    calls (snd (snd out)) = [c] /\
    call_url c = "http://h/api/v2/auth/login" /\
    call_kwargs c !! "verify" = Some (VBool true) /\
    call_kwargs c !! "timeout" = None.
Proof.
  cbv zeta. split; [reflexivity|]. split; [reflexivity|].
  eexists. split; [reflexivity|]. repeat split.
Qed.

Lemma request_targets_api_url_witness :
  _url (fst (stub_state accept_all)) = "http://h" ++ "/api/v2/" /\
  exists c new,
    calls (snd (snd (_request accept_all toy_loads "app/version" "get" VNone
                              0 ∅ (stub_state accept_all))))
    = (calls (snd (stub_state accept_all)) ++ c :: new)%list /\
    call_url c = "http://h" ++ "/api/v2/" ++ "app/version" /\
    Forall (fun c' => call_url c' = "http://h" ++ "/api/v2/" ++ "app/version" \/
                      call_url c' = "http://h" ++ "/api/v2/" ++ "auth/login")
           new.
Proof.
  apply (request_targets_api_url accept_all toy_loads "http://h" "http://h"
           "admin" "secret" true (VInt 5) 3 (mk_transport [] 0)).
  - reflexivity.
  - left. reflexivity.
  - reflexivity.
Defined.

(** C10, as the code has it.  A base URL that ends in two slashes keeps them
    both: the constructor adds no slash and removes none, and the dispatch
    goes to a URL with a doubled slash before the API path. *)
Lemma double_slash_base_url :
  let constructed :=
    __init__ accept_all "http://h//" "admin" "secret" true (VInt 5) 3
             (mk_transport [] 0) in
  let out := _request accept_all toy_loads "app/version" "get" VNone 0 ∅
                      (snd constructed) in
  fst constructed = Return tt /\
  _url (fst (snd constructed)) = "http://h//api/v2/" /\
  exists c,
    calls (snd (snd out)) = (calls (snd (snd constructed)) ++ [c])%list /\
    call_url c = "http://h//api/v2/app/version".
Proof.
  cbv zeta. split; [reflexivity|]. split; [reflexivity|].
  eexists. split; reflexivity.
Qed.

(** * More of the client *)

(** ** Errors that end a dispatch *)

Section DispatchErrors.

Variable srv : server.
Variable json_loads : string -> option pyval.

(** A 4xx or 5xx answer that is not a 403, or a 403 on an attempt past the
    maximum, is raised at once: one call, no login, the client untouched. *)
Theorem request_error_status_raises (self : t) (net : transport) (sid : nat)
    (endpoint method : string) (data : pyval) (attempt : Z)
    (kwargs : gmap string pyval) :
  _session self = Some sid ->
  let c := request_call self sid endpoint method data kwargs in
  let r := srv (calls net) c in
  400 <= status_code r < 600 ->
  status_code r <> 403 \/ _max_attempts_on_403 self < attempt ->
  _request srv json_loads endpoint method data attempt kwargs (self, net)
  = (Raise (HTTPError (status_code r) (_url self ++ endpoint)),
     (self, mk_transport (calls net ++ [c]) (sessions_made net))).
Proof.
  intros Hs c r Hst Hno.
  rewrite (_request_done srv json_loads self net sid) by
    first [ exact Hs
          | fold c r; apply andb_false_iff;
            destruct Hno; [left; apply Z.eqb_neq | right; apply Z.leb_gt];
            assumption ].
  fold c r. unfold decode_response.
  rewrite raise_for_status_error by exact Hst. reflexivity.
Qed.

(** A 403 inside the budget whose re-login is refused ends the dispatch with
    [WrongCredentials], after one attempt and one login; the client is left
    on the session that login made. *)
Theorem request_relogin_refused (self : t) (net : transport) (sid : nat)
    (endpoint method : string) (data : pyval) (attempt : Z)
    (kwargs : gmap string pyval) :
  _session self = Some sid ->
  let c := request_call self sid endpoint method data kwargs in
  let lc := login_call self (sessions_made net) in
  status_code (srv (calls net) c) = 403 ->
  attempt <= _max_attempts_on_403 self ->
  text (srv (calls net ++ [c])%list lc) <> "Ok." ->
  _request srv json_loads endpoint method data attempt kwargs (self, net)
  = (Raise WrongCredentials,
     (set_session self (Some (sessions_made net)),
      mk_transport (calls net ++ [c; lc]) (S (sessions_made net)))).
Proof.
  intros Hs c lc H403 Hle Hno.
  rewrite _request_unfold, (send_request_run srv self net sid) by assumption.
  cbv beta iota zeta. fold c. rewrite H403. simpl fst.
  replace (attempt <=? _max_attempts_on_403 self) with true
    by (symmetry; apply Z.leb_le; assumption).
  simpl andb. cbv iota. rewrite login_run.
  cbv beta iota zeta. simpl calls. simpl sessions_made. fold lc.
  apply String.eqb_neq in Hno. rewrite Hno. rewrite <- app_assoc. reflexivity.
Qed.

End DispatchErrors.

Lemma request_error_status_raises_witness :
  _request not_found toy_loads "app/version" "get" VNone 0 ∅
           (stub_state not_found)
  = (Raise (HTTPError 404 "http://h/api/v2/app/version"),
     (fst (stub_state not_found),
      mk_transport
        (calls (snd (stub_state not_found))
           ++ [request_call (fst (stub_state not_found)) 0 "app/version" "get"
                            VNone ∅])
        1)).
Proof.
  apply (request_error_status_raises not_found toy_loads
           (fst (stub_state not_found)) (snd (stub_state not_found)) 0%nat
           "app/version" "get" VNone 0 ∅).
  - reflexivity.
  - simpl. lia.
  - left. discriminate.
Defined.

Lemma request_relogin_refused_witness :
  fst (_request expire_and_refuse toy_loads "app/version" "get" VNone 0 ∅
                (stub_state expire_and_refuse))
  = Raise WrongCredentials.
Proof.
  refine (f_equal fst
            (request_relogin_refused expire_and_refuse toy_loads
               (fst (stub_state expire_and_refuse))
               (snd (stub_state expire_and_refuse)) 0%nat
               "app/version" "get" VNone 0 ∅ _ _ _ _)).
  - reflexivity.
  - reflexivity.
  - simpl. lia.
  - discriminate.
Defined.

(** ** The shape of a dispatch *)

Lemma request_kwargs_idem (self : t) (kwargs : gmap string pyval) :
  request_kwargs self (request_kwargs self kwargs) = request_kwargs self kwargs.
Proof.
  unfold request_kwargs. apply map_eq. intros k.
  rewrite !lookup_insert. repeat case_decide; congruence.
Qed.

(** The shape reads the URL, the verify flag and the timeout of the client,
    never its session. *)
Lemma run_shape_set_session self s endpoint method data kwargs sid m budget
    new sid' m' :
  run_shape (set_session self s) endpoint method data kwargs sid m budget
            new sid' m' ->
  run_shape self endpoint method data kwargs sid m budget new sid' m'.
Proof.
  induction 1 as [kwargs sid m budget | kwargs sid m budget
                 | kwargs sid m budget rest sid' m' _ IH].
  - exact (run_last self endpoint method data kwargs sid m budget).
  - exact (run_refused self endpoint method data kwargs sid m budget).
  - exact (run_retry self endpoint method data kwargs sid m budget rest
                     sid' m' IH).
Qed.

Section Shape.

Variable srv : server.
Variable json_loads : string -> option pyval.

(** Whatever the server answers, a dispatch from a client that holds a
    session adds calls of one of the three shapes. *)
Lemma _request_run (endpoint method : string) (data : pyval) (n : nat) :
  forall (attempt : Z) (kwargs : gmap string pyval) (self : t)
         (net : transport) (sid : nat),
    Z.to_nat (_max_attempts_on_403 self + 1 - attempt) = n ->
    _session self = Some sid ->
    exists res new sid' m',
      _request srv json_loads endpoint method data attempt kwargs (self, net)
      = (res, (set_session self (Some sid'),
               mk_transport (calls net ++ new) m')) /\
      run_shape self endpoint method data kwargs sid (sessions_made net) n
                new sid' m'.
Proof.
  induction n as [|n IH]; intros attempt kwargs self net sid Hn Hs.
  all: rewrite _request_unfold, (send_request_run srv self net sid)
    by assumption.
  all: cbv beta iota zeta; simpl fst.
  all: set (c := request_call self sid endpoint method data kwargs).
  all: destruct ((status_code (srv (calls net) c) =? 403)
                 && (attempt <=? _max_attempts_on_403 self)) eqn:Hc.
  all: try (eexists _, [c], sid, (sessions_made net);
            rewrite <- Hs, set_session_same; split;
            [reflexivity | apply run_last]).
  - apply andb_prop in Hc as [_ Hle]. apply Z.leb_le in Hle. lia.
  - apply andb_prop in Hc as [_ Hle]. apply Z.leb_le in Hle.
    rewrite login_run. cbv beta iota zeta. simpl calls. simpl sessions_made.
    set (lc := login_call self (sessions_made net)).
    destruct (String.eqb (text (srv (calls net ++ [c])%list lc)) "Ok.").
    + destruct (IH (attempt + 1) (request_kwargs self kwargs)
                  (set_session self (Some (sessions_made net)))
                  (mk_transport ((calls net ++ [c]) ++ [lc])
                                (S (sessions_made net)))
                  (sessions_made net))
        as (res & new & sid' & m' & Heq & Hshape).
      { simpl. lia. }
      { reflexivity. }
      exists res, (c :: lc :: new), sid', m'. split.
      * rewrite Heq. simpl. rewrite <- !app_assoc. reflexivity.
      * apply run_retry. apply run_shape_set_session in Hshape.
        exact Hshape.
    + exists (Raise WrongCredentials), [c; lc], (sessions_made net),
        (S (sessions_made net)). split.
      * rewrite <- app_assoc. reflexivity.
      * apply run_refused.
Qed.

End Shape.

Lemma request_call_session self sid endpoint method data kwargs :
  call_session (request_call self sid endpoint method data kwargs) = sid.
Proof. unfold request_call. destruct (String.eqb method "get"); reflexivity. Qed.

Lemma request_call_kwargs_idem self sid endpoint method data kwargs :
  request_call self sid endpoint method data (request_kwargs self kwargs)
  = request_call self sid endpoint method data kwargs.
Proof. unfold request_call. rewrite request_kwargs_idem. reflexivity. Qed.

Lemma run_shape_length self endpoint method data kwargs sid m budget new
    sid' m' :
  run_shape self endpoint method data kwargs sid m budget new sid' m' ->
  (1 <= List.length new <= 2 * budget + 1)%nat.
Proof. induction 1; simpl in *; lia. Qed.

Lemma run_shape_same_call self endpoint method data kwargs sid m budget new
    sid' m' :
  run_shape self endpoint method data kwargs sid m budget new sid' m' ->
  Forall (fun c =>
            (exists j, c = request_call self j endpoint method data kwargs) \/
            (exists j, c = login_call self j)) new.
Proof.
  induction 1 as [kwargs sid m budget | kwargs sid m budget
                 | kwargs sid m budget rest sid' m' _ IH].
  - constructor; [left; eexists; reflexivity | constructor].
  - constructor; [left; eexists; reflexivity|].
    constructor; [right; eexists; reflexivity | constructor].
  - constructor; [left; eexists; reflexivity|].
    constructor; [right; eexists; reflexivity|].
    eapply Forall_impl; [exact IH|]. intros c [[j ->] | Hl]; [left | right; exact Hl].
    exists j. apply request_call_kwargs_idem.
Qed.

Lemma cons_eq_inv {A} (x y : A) (l l' : list A) :
  x :: l = y :: l' -> x = y /\ l = l'.
Proof. intros H. injection H as H1 H2. split; assumption. Qed.

Lemma request_call_not_login self i j endpoint method data kwargs :
  request_call self i endpoint method data kwargs <> login_call self j.
Proof.
  intros H. apply (f_equal (fun c => call_kwargs c !! "timeout")) in H.
  rewrite request_call_kwargs, request_kwargs_timeout, login_call_no_timeout
    in H.
  discriminate H.
Qed.

Lemma run_shape_head self endpoint method data kwargs sid m budget new
    sid' m' :
  run_shape self endpoint method data kwargs sid m budget new sid' m' ->
  exists j tl, new = j :: tl /\ call_session j = sid.
Proof.
  destruct 1; eexists _, _; (split; [reflexivity|]);
    apply request_call_session.
Qed.

(** In a run, the call after a login is sent on the session that login made,
    and every call before that login was sent on an older one. *)
Lemma run_shape_after_login self endpoint method data kwargs sid m budget new
    sid' m' :
  run_shape self endpoint method data kwargs sid m budget new sid' m' ->
  (sid < m)%nat ->
  forall pre j c post,
    new = (pre ++ login_call self j :: c :: post)%list ->
    call_session c = j /\ (m <= j)%nat /\
    Forall (fun c' => (call_session c' < j)%nat) pre.
Proof.
  induction 1 as [kwargs sid m budget | kwargs sid m budget
                 | kwargs sid m budget rest sid' m' Hrest IH];
    intros Hlt pre j c post Hnew.
  - destruct pre as [|? [|? ?]]; discriminate Hnew.
  - destruct pre as [|p1 [|p2 pre]].
    + apply cons_eq_inv in Hnew as [Hc _].
      apply request_call_not_login in Hc. contradiction.
    + apply cons_eq_inv in Hnew as [_ Hnew].
      apply cons_eq_inv in Hnew as [_ Habs]. discriminate Habs.
    + apply cons_eq_inv in Hnew as [_ Hnew].
      apply cons_eq_inv in Hnew as [_ Habs]. destruct pre; discriminate Habs.
  - destruct pre as [|p1 [|p2 pre]].
    + apply cons_eq_inv in Hnew as [Hc _].
      apply request_call_not_login in Hc. contradiction.
    + apply cons_eq_inv in Hnew as [<- Hnew].
      apply cons_eq_inv in Hnew as [Hl Hrest'].
      apply (f_equal call_session) in Hl. simpl in Hl. subst j.
      destruct (run_shape_head _ _ _ _ _ _ _ _ _ _ _ Hrest)
        as (hd & tl & Hhd & Hsess).
      rewrite Hhd in Hrest'. apply cons_eq_inv in Hrest' as [<- _].
      split; [exact Hsess | split; [lia|]].
      apply Forall_cons_2; [rewrite request_call_session; exact Hlt
                           | apply Forall_nil_2].
    + apply cons_eq_inv in Hnew as [<- Hnew].
      apply cons_eq_inv in Hnew as [<- Hrest'].
      destruct (IH ltac:(lia) pre j c post Hrest') as (Hc & Hj & Hpre).
      split; [exact Hc | split; [lia|]].
      apply Forall_cons_2; [rewrite request_call_session; lia|].
      apply Forall_cons_2; [simpl; lia | exact Hpre].
Qed.

Section ShapeCorollaries.

Variable srv : server.
Variable json_loads : string -> option pyval.

(** The retry loop is bounded for every server: a dispatch adds at least one
    call and at most [2 * Z.to_nat (max + 1 - attempt) + 1] of them. *)
Theorem request_bounded_calls (self : t) (net : transport) (sid : nat)
    (endpoint method : string) (data : pyval) (attempt : Z)
    (kwargs : gmap string pyval) :
  _session self = Some sid ->
  exists new,
    calls (snd (snd (_request srv json_loads endpoint method data attempt
                              kwargs (self, net))))
    = (calls net ++ new)%list /\
    (1 <= List.length new
     <= 2 * Z.to_nat (_max_attempts_on_403 self + 1 - attempt) + 1)%nat.
Proof.
  intros Hs.
  destruct (_request_run srv json_loads endpoint method data _ attempt kwargs
              self net sid eq_refl Hs) as (res & new & sid' & m' & Heq & Hsh).
  exists new. rewrite Heq. split; [reflexivity|].
  eapply run_shape_length. exact Hsh.
Qed.

(** Every attempt of one dispatch is the same call: the same verb, URL, data
    and keyword arguments as the first, on whatever session is current.  The
    other calls are logins. *)
Theorem request_resends_same_call (self : t) (net : transport) (sid : nat)
    (endpoint method : string) (data : pyval) (attempt : Z)
    (kwargs : gmap string pyval) :
  _session self = Some sid ->
  exists new,
    calls (snd (snd (_request srv json_loads endpoint method data attempt
                              kwargs (self, net))))
    = (calls net ++ new)%list /\
    Forall (fun c =>
              (exists j, c = request_call self j endpoint method data kwargs)
              \/ (exists j, c = login_call self j)) new.
Proof.
  intros Hs.
  destruct (_request_run srv json_loads endpoint method data _ attempt kwargs
              self net sid eq_refl Hs) as (res & new & sid' & m' & Heq & Hsh).
  exists new. rewrite Heq. split; [reflexivity|].
  eapply run_shape_same_call. exact Hsh.
Qed.

(** A dispatch changes no attribute of the client but the session, and it
    only appends to the record of calls. *)
Theorem request_keeps_attributes (self : t) (net : transport)
    (endpoint method : string) (data : pyval) (attempt : Z)
    (kwargs : gmap string pyval) :
  let out := _request srv json_loads endpoint method data attempt kwargs
                      (self, net) in
  fst (snd out) = set_session self (_session (fst (snd out))) /\
  exists new, calls (snd (snd out)) = (calls net ++ new)%list.
Proof.
  intros out. subst out.
  destruct (_request_sends srv json_loads endpoint method data _ attempt kwargs
              self net eq_refl) as (res & s & new & m & Heq & _ & _).
  rewrite Heq. simpl. split; [reflexivity | exists new; reflexivity].
Qed.

(** A retry never runs on the expired session: in a dispatch, the call that
    follows a login is sent on the session that login made, and no call
    recorded before that login, in this dispatch or earlier, was sent on
    it. *)
Theorem request_retry_uses_new_session (self : t) (net : transport)
    (sid : nat) (endpoint method : string) (data : pyval) (attempt : Z)
    (kwargs : gmap string pyval) :
  sessions_numbered (self, net) ->
  _session self = Some sid ->
  exists new,
    calls (snd (snd (_request srv json_loads endpoint method data attempt
                              kwargs (self, net))))
    = (calls net ++ new)%list /\
    forall pre j c post,
      new = (pre ++ login_call self j :: c :: post)%list ->
      call_session c = j /\
      Forall (fun c' => call_session c' <> j) (calls net ++ pre).
Proof.
  intros [Hcalls Hsess] Hs. simpl in Hcalls, Hsess.
  destruct (_request_run srv json_loads endpoint method data _ attempt kwargs
              self net sid eq_refl Hs) as (res & new & sid' & m' & Heq & Hsh).
  exists new. rewrite Heq. split; [reflexivity|].
  intros pre j c post Hnew.
  destruct (run_shape_after_login _ _ _ _ _ _ _ _ _ _ _ Hsh (Hsess sid Hs)
              pre j c post Hnew) as (Hc & Hj & Hpre).
  split; [exact Hc|]. apply Forall_app. split.
  - eapply Forall_impl; [exact Hcalls|]. simpl. intros c' Hc'. lia.
  - eapply Forall_impl; [exact Hpre|]. simpl. intros c' Hc'. lia.
Qed.

End ShapeCorollaries.

Lemma request_bounded_calls_witness :
  exists new,
    calls (snd (snd (_request forbid_always toy_loads "app/version" "get"
                              VNone 0 ∅ (stub_state forbid_always))))
    = (calls (snd (stub_state forbid_always)) ++ new)%list /\
    (1 <= List.length new <= 9)%nat.
Proof.
  apply (request_bounded_calls forbid_always toy_loads
           (fst (stub_state forbid_always)) (snd (stub_state forbid_always))
           0%nat "app/version" "get" VNone 0 ∅).
  reflexivity.
Defined.

Lemma request_resends_same_call_witness :
  exists new,
    calls (snd (snd (_request (forbid_first 2) toy_loads "torrents/pause"
                              "post" (VDict {[ "hashes" := VStr "all" ]}) 0 ∅
                              (stub_state (forbid_first 2)))))
    = (calls (snd (stub_state (forbid_first 2))) ++ new)%list /\
    Forall (fun c =>
              (exists j, c = request_call (fst (stub_state (forbid_first 2))) j
                               "torrents/pause" "post"
                               (VDict {[ "hashes" := VStr "all" ]}) ∅)
              \/ (exists j, c = login_call (fst (stub_state (forbid_first 2))) j))
           new.
Proof.
  apply (request_resends_same_call (forbid_first 2) toy_loads
           (fst (stub_state (forbid_first 2)))
           (snd (stub_state (forbid_first 2))) 0%nat).
  reflexivity.
Defined.

Lemma request_retry_uses_new_session_witness :
  exists new,
    calls (snd (snd (_request forbid_always toy_loads "app/version" "get"
                              VNone 0 ∅ (stub_state forbid_always))))
    = (calls (snd (stub_state forbid_always)) ++ new)%list /\
    forall pre j c post,
      new = (pre ++ login_call (fst (stub_state forbid_always)) j
                 :: c :: post)%list ->
      call_session c = j /\
      Forall (fun c' => call_session c' <> j)
             (calls (snd (stub_state forbid_always)) ++ pre).
Proof.
  apply (request_retry_uses_new_session forbid_always toy_loads
           (fst (stub_state forbid_always)) (snd (stub_state forbid_always))
           0%nat "app/version" "get" VNone 0 ∅).
  - split; simpl.
    + apply Forall_cons_2; [simpl; lia | apply Forall_nil_2].
    + intros sid [= <-]. lia.
  - reflexivity.
Defined.

(** ** Changing the credentials *)

Section Credentials.

Variable srv : server.
Variables username password : string.

(** The service knows one pair of credentials. *)
Hypothesis accepts_only :
  forall h self sid,
    text (srv h (login_call self sid)) = "Ok." <->
    (_username self = username /\ _password self = password).

Lemma login_accepts_iff (self : t) (net : transport) :
  fst (login srv (self, net))
  = if decide (_username self = username /\ _password self = password)
    then Return tt else Raise WrongCredentials.
Proof.
  rewrite login_run. cbv zeta. simpl fst.
  destruct (String.eqb_spec
              (text (srv (calls net) (login_call self (sessions_made net))))
              "Ok.") as [E | E]; case_decide as D; try reflexivity.
  - apply (proj1 (accepts_only _ _ _)) in E. contradiction.
  - apply (proj2 (accepts_only (calls net) self (sessions_made net))) in D.
    contradiction.
Qed.

(** When both credentials have to change, the setter for the user name logs
    in with the new name and the old password: it raises [WrongCredentials],
    and the new name stays stored.  [update_credentials] sets both before its
    one login, and returns. *)
Theorem update_credentials_logs_in_once (self : t) (net : transport) :
  _password self <> password ->
  let by_setter := username_setter srv username (self, net) in
  let by_update := update_credentials srv username password (self, net) in
  fst by_setter = Raise WrongCredentials /\
  _username (fst (snd by_setter)) = username /\
  _password (fst (snd by_setter)) = _password self /\
  fst by_update = Return tt /\
  _username (fst (snd by_update)) = username /\
  _password (fst (snd by_update)) = password /\
  exists c, calls (snd (snd by_update)) = (calls net ++ [c])%list.
Proof.
  intros Hp by_setter by_update. subst by_setter by_update.
  change (username_setter srv username (self, net))
    with (login srv (set_username self username, net)).
  change (update_credentials srv username password (self, net))
    with (login srv (set_password (set_username self username) password, net)).
  rewrite !login_accepts_iff. rewrite !login_run. cbv zeta. simpl.
  repeat case_decide; repeat split; try reflexivity; try tauto.
  eexists; reflexivity.
Qed.

End Credentials.

Lemma update_credentials_logs_in_once_witness :
  let st := (init_self "http://h" "admin" "admin" true VNone 3,
             mk_transport [] 0) in
  fst (username_setter knows_pair "root" st) = Raise WrongCredentials /\
  fst (update_credentials knows_pair "root" "secret" st) = Return tt.
Proof.
  intros st.
  pose proof (update_credentials_logs_in_once knows_pair "root" "secret") as H.
  specialize (H ltac:(
    intros h self sid; unfold knows_pair, login_call; cbn [call_data];
    rewrite lookup_insert_eq, lookup_insert_ne, lookup_insert_eq by discriminate;
    destruct (String.eqb_spec (_username self) "root");
    destruct (String.eqb_spec (_password self) "secret"); simpl;
    split; intros; try tauto; try discriminate) (fst st) (snd st)
    ltac:(discriminate)).
  split; [apply H | apply H].
Defined.

(** ** More on the batch target *)

Lemma chr_lower_pipe (c : ascii) :
  Ascii.eqb (chr_lower c) "|" = Ascii.eqb c "|".
Proof. destruct c as [[] [] [] [] [] [] [] []]; reflexivity. Qed.

Lemma pipe_free_lower (s : string) : pipe_free (str_lower s) = pipe_free s.
Proof.
  induction s as [|c s IH]; [reflexivity|].
  simpl. rewrite chr_lower_pipe, IH. reflexivity.
Qed.

Lemma pipe_free_app_pipe (a r : string) : pipe_free (a ++ "|" ++ r) = false.
Proof.
  induction a as [|c a IH]; [reflexivity|].
  change (pipe_free (String c (a ++ "|" ++ r)) = false).
  simpl. rewrite IH. apply andb_false_r.
Qed.

Lemma split_at_pipe (a b r1 r2 : string) :
  pipe_free a = true -> pipe_free b = true ->
  a ++ "|" ++ r1 = b ++ "|" ++ r2 -> a = b /\ r1 = r2.
Proof.
  revert b. induction a as [|c a IH]; intros [|d b] Ha Hb H.
  - injection H as H. split; [reflexivity | exact H].
  - injection H as Hc _. subst d. discriminate Hb.
  - injection H as Hc _. subst c. discriminate Ha.
  - injection H as Hc H. subst d.
    simpl in Ha, Hb. apply andb_prop in Ha as [_ Ha].
    apply andb_prop in Hb as [_ Hb].
    destruct (IH b Ha Hb H) as [-> ->]. split; reflexivity.
Qed.

Lemma str_join_cons_cons (sep x y : string) (l : list string) :
  str_join sep (x :: y :: l) = x ++ sep ++ str_join sep (y :: l).
Proof. reflexivity. Qed.

Lemma str_join_pipe_inj (l1 l2 : list string) :
  l1 <> [] -> l2 <> [] ->
  Forall (fun s => pipe_free s = true) l1 ->
  Forall (fun s => pipe_free s = true) l2 ->
  str_join "|" l1 = str_join "|" l2 -> l1 = l2.
Proof.
  revert l2. induction l1 as [|x [|x' l1] IH]; intros [|y [|y' l2]] H1 H2 F1 F2 H;
    try contradiction.
  - change (x = y) in H. subst y. reflexivity.
  - change (x = y ++ "|" ++ str_join "|" (y' :: l2)) in H.
    apply Forall_cons in F1 as [Fx _]. rewrite H, pipe_free_app_pipe in Fx.
    discriminate Fx.
  - change (x ++ "|" ++ str_join "|" (x' :: l1) = y) in H.
    apply Forall_cons in F2 as [Fy _]. rewrite <- H, pipe_free_app_pipe in Fy.
    discriminate Fy.
  - rewrite !str_join_cons_cons in H.
    apply Forall_cons in F1 as [Fx F1]. apply Forall_cons in F2 as [Fy F2].
    apply split_at_pipe in H as [-> H]; try assumption.
    f_equal. apply IH; try assumption; discriminate.
Qed.

(** The wire value of a list tells the identifiers apart up to case: two
    non-empty lists of identifiers without a pipe normalise to the same field
    exactly when they agree once lower-cased. *)
Theorem process_infohash_list_same_value (l1 l2 : list string) :
  l1 <> [] -> l2 <> [] ->
  Forall (fun s => pipe_free s = true) l1 ->
  Forall (fun s => pipe_free s = true) l2 ->
  _process_infohash_list (VList (VStr <$> l1))
  = _process_infohash_list (VList (VStr <$> l2))
  <-> str_lower <$> l1 = str_lower <$> l2.
Proof.
  intros H1 H2 F1 F2. unfold _process_infohash_list.
  rewrite !omap_py_lower_strs. cbv [obind]. split.
  - intros H. apply Return_inj, hashes_singleton_inj in H. injection H as H.
    apply str_join_pipe_inj in H; try assumption.
    + destruct l1; [contradiction | discriminate].
    + destruct l2; [contradiction | discriminate].
    + apply Forall_fmap. eapply Forall_impl; [exact F1|].
      intros s Hs. simpl. rewrite pipe_free_lower. exact Hs.
    + apply Forall_fmap. eapply Forall_impl; [exact F2|].
      intros s Hs. simpl. rewrite pipe_free_lower. exact Hs.
  - intros ->. reflexivity.
Qed.

Lemma process_infohash_list_same_value_witness :
  _process_infohash_list (VList (VStr <$> ["AB12"; "cd34"]))
  = _process_infohash_list (VList (VStr <$> ["ab12"; "CD34"])).
Proof.
  apply (process_infohash_list_same_value ["AB12"; "cd34"] ["ab12"; "CD34"]).
  - discriminate.
  - discriminate.
  - apply Forall_cons_2; [reflexivity|].
    apply Forall_cons_2; [reflexivity | apply Forall_nil_2].
  - apply Forall_cons_2; [reflexivity|].
    apply Forall_cons_2; [reflexivity | apply Forall_nil_2].
  - reflexivity.
Defined.

Lemma omap_py_lower_raises (l : list pyval) :
  Exists (fun x => has_no_lower x = true) l ->
  omap py_lower l = Raise AttributeError.
Proof.
  induction 1 as [x l Hx | x l _ IH]; cbn [omap].
  - destruct x; try discriminate Hx; reflexivity.
  - destruct x; try reflexivity. cbv [py_lower obind].
    fold py_lower. fold (omap py_lower l). rewrite IH. reflexivity.
Qed.

(** The normaliser raises [AttributeError] on a value that is not a list and
    has no method [lower] ([None], a [bool], an [int], a [tuple], a [dict]),
    and on every list that holds a value without that method, wherever in the
    list it stands. *)
Theorem process_infohash_list_rejects :
  (forall v, has_no_lower v = true -> (forall l, v <> VList l) ->
             _process_infohash_list v = Raise AttributeError) /\
  (forall l, Exists (fun x => has_no_lower x = true) l ->
             _process_infohash_list (VList l) = Raise AttributeError).
Proof.
  split.
  - intros v Hv Hl. destruct v; try discriminate Hv; try reflexivity.
    exfalso. eapply Hl. reflexivity.
  - intros l Hl. unfold _process_infohash_list.
    rewrite omap_py_lower_raises by exact Hl. reflexivity.
Qed.

(** ** Listing torrents *)

Lemma torrents_params_snoc (filters : list (string * pyval)) name value :
  torrents_params (filters ++ [(name, value)])
  = <[filter_name name := value]> (torrents_params filters).
Proof. unfold torrents_params. rewrite fold_left_app. reflexivity. Qed.

Lemma torrents_params_list_to_map (filters : list (string * pyval)) :
  torrents_params filters
  = list_to_map (reverse (prod_map filter_name id <$> filters)).
Proof.
  induction filters as [|[name value] filters IH] using rev_ind; [reflexivity|].
  rewrite torrents_params_snoc, fmap_app, reverse_app, IH. reflexivity.
Qed.

(** The parameters built by the loop, when no two filters get the same name
    once [status] is renamed. *)
Lemma torrents_params_lookup (filters : list (string * pyval)) :
  NoDup (filter_name <$> filters.*1) ->
  forall k v,
    torrents_params filters !! k = Some v <->
    exists name, (name, v) ∈ filters /\ filter_name name = k.
Proof.
  intros Hnd k v. rewrite torrents_params_list_to_map.
  rewrite <- elem_of_list_to_map.
  - rewrite elem_of_reverse, list_elem_of_fmap. split.
    + intros [[name v'] [[= -> ->] Hin]]. exists name. split; [exact Hin | reflexivity].
    + intros [name [Hin <-]]. exists (name, v). split; [reflexivity | exact Hin].
  - rewrite fmap_reverse, reverse_Permutation.
    rewrite <- list_fmap_compose.
    rewrite <- list_fmap_compose in Hnd.
    erewrite list_fmap_ext; [exact Hnd|]. intros i [name value] _. reflexivity.
Qed.

(** The loop never stores the key [status], and the filter it takes last is
    stored under its name. *)
Lemma torrents_params_status (filters : list (string * pyval)) :
  torrents_params filters !! "status" = None /\
  forall name value,
    torrents_params (filters ++ [(name, value)]) !! filter_name name
    = Some value.
Proof.
  split.
  - induction filters as [|[name value] filters IH] using rev_ind;
      [reflexivity|].
    rewrite torrents_params_snoc, lookup_insert_ne; [exact IH|].
    unfold filter_name. destruct (String.eqb_spec name "status");
      [discriminate | assumption].
  - intros name value. rewrite torrents_params_snoc. apply lookup_insert_eq.
Qed.

(** ** Adding torrents *)

Lemma dict_get_truthy (d : gmap string pyval) (k : string) :
  py_truthy (dict_get d k) = true -> d !! k = Some (dict_get d k).
Proof.
  unfold dict_get. destruct (d !! k); [reflexivity | discriminate].
Qed.

Lemma omap_py_str_item_strs (l : list string) :
  omap py_str_item (VStr <$> l) = Return l.
Proof.
  induction l as [|s l IH]; [reflexivity|].
  rewrite fmap_cons. cbn [omap py_str_item obind]. rewrite IH. reflexivity.
Qed.

(** The options [download_from_link] ends up with, before [urls] is set. *)
Lemma download_from_link_options_inv link kwargs options :
  download_from_link_options link kwargs = Return options ->
  exists urls,
    options
    = <["urls" := urls]>
        (if py_truthy (dict_get kwargs "save_path")
            && negb (py_truthy (dict_get kwargs "savepath"))
         then <["savepath" := dict_get kwargs "save_path"]> kwargs
         else kwargs).
Proof.
  unfold download_from_link_options, old_arg_map. cbn [fold_left].
  intros H. destruct link;
    try (apply Return_inj in H; subst options; eexists; reflexivity).
  destruct (omap py_str_item l) as [items|e]; cbv [obind] in H;
    [|discriminate H].
  apply Return_inj in H. subst options. eexists; reflexivity.
Qed.

(** The options after the loop over [old_arg_map]. *)
Lemma download_from_link_savepath (link : pyval)
    (kwargs options : gmap string pyval) :
  download_from_link_options link kwargs = Return options ->
  (py_truthy (dict_get kwargs "savepath") = true ->
   options !! "savepath" = kwargs !! "savepath") /\
  (py_truthy (dict_get kwargs "savepath") = false ->
   py_truthy (dict_get kwargs "save_path") = true ->
   options !! "savepath" = kwargs !! "save_path") /\
  (py_truthy (dict_get kwargs "save_path") = false ->
   options !! "savepath" = kwargs !! "savepath") /\
  (forall k, k <> "urls" -> k <> "savepath" -> options !! k = kwargs !! k).
Proof.
  intros H. apply download_from_link_options_inv in H as [urls ->].
  repeat split.
  - intros ->. rewrite andb_false_r. rewrite lookup_insert_ne by discriminate.
    reflexivity.
  - intros -> Ht. rewrite Ht. simpl andb. cbv iota.
    rewrite lookup_insert_ne by discriminate. rewrite lookup_insert_eq.
    symmetry. apply dict_get_truthy. exact Ht.
  - intros ->. simpl andb. cbv iota. rewrite lookup_insert_ne by discriminate.
    reflexivity.
  - intros k Hu Hs. rewrite lookup_insert_ne by (apply not_eq_sym; exact Hu).
    destruct (py_truthy (dict_get kwargs "save_path")
              && negb (py_truthy (dict_get kwargs "savepath")));
      [rewrite lookup_insert_ne by (apply not_eq_sym; exact Hs)|]; reflexivity.
Qed.

Lemma torrents_key_inj (i j : nat) : torrents_key i = torrents_key j -> i = j.
Proof.
  unfold torrents_key. intros H.
  apply (inj (String.app "torrents")) in H. apply (inj pretty) in H. exact H.
Qed.

Lemma update_torrent_files_key (l : list pyval) :
  forall (i : nat) (m : gmap string pyval) (j : nat),
    update_torrent_files i l m !! torrents_key j
    = if decide (i <= j < i + List.length l)%nat then l !! (j - i)%nat
      else m !! torrents_key j.
Proof.
  induction l as [|f l IH]; intros i m j.
  - simpl. case_decide; [lia | reflexivity].
  - cbn [update_torrent_files List.length]. rewrite IH.
    destruct (decide (j = i)) as [-> | Hne].
    + rewrite lookup_insert_eq, Nat.sub_diag.
      repeat case_decide; try lia. reflexivity.
    + rewrite lookup_insert_ne
        by (intros H; apply torrents_key_inj in H; congruence).
      repeat case_decide; try lia; try reflexivity.
      replace (j - i)%nat with (S (j - S i)) by lia. reflexivity.
Qed.

Lemma update_torrent_files_inv (l : list pyval) :
  forall (i : nat) (m : gmap string pyval) (k : string) (f : pyval),
    update_torrent_files i l m !! k = Some f ->
    m !! k = Some f \/
    exists j, k = torrents_key (i + j) /\ l !! j = Some f.
Proof.
  induction l as [|f0 l IH]; intros i m k f H; [left; exact H|].
  cbn [update_torrent_files] in H. apply IH in H as [H | (j & -> & Hj)].
  - destruct (decide (k = torrents_key i)) as [-> | Hne].
    + rewrite lookup_insert_eq in H. right. exists 0%nat.
      rewrite Nat.add_0_r. split; [reflexivity | exact H].
    + rewrite lookup_insert_ne in H by (apply not_eq_sym; exact Hne).
      left. exact H.
  - right. exists (S j). split; [f_equal; lia | exact Hj].
Qed.

Lemma update_torrent_files_size (l : list pyval) :
  forall (i : nat) (m : gmap string pyval),
    (forall j, (i <= j)%nat -> m !! torrents_key j = None) ->
    size (update_torrent_files i l m) = (size m + List.length l)%nat.
Proof.
  induction l as [|f l IH]; intros i m Hm; [simpl; lia|].
  cbn [update_torrent_files List.length]. rewrite IH.
  - rewrite map_size_insert_None by (apply Hm; lia). lia.
  - intros j Hj. rewrite lookup_insert_ne
      by (intros H; apply torrents_key_inj in H; lia).
    apply Hm. lia.
Qed.

(** The dictionary of files built from a list. *)
Lemma download_from_file_files_lookup (l : list pyval) :
  (forall i, download_from_file_files (VList l) !! torrents_key i = l !! i) /\
  (forall k f,
     download_from_file_files (VList l) !! k = Some f ->
     exists i, k = torrents_key i /\ l !! i = Some f) /\
  size (download_from_file_files (VList l)) = List.length l.
Proof.
  unfold download_from_file_files. split; [|split].
  - intros i. rewrite update_torrent_files_key, Nat.sub_0_r.
    case_decide as H; [reflexivity|].
    rewrite lookup_empty. symmetry. apply lookup_ge_None. lia.
  - intros k f H. apply update_torrent_files_inv in H as [H | (j & -> & Hj)].
    + rewrite lookup_empty in H. discriminate H.
    + exists j. split; [reflexivity | exact Hj].
  - rewrite update_torrent_files_size by (intros; apply lookup_empty).
    rewrite map_size_empty. reflexivity.
Qed.

(** ** Commands on the wire *)

Section Commands.

Variable srv : server.
Variable json_loads : string -> option pyval.

Lemma _post_first_call self net sid endpoint data kwargs :
  _session self = Some sid ->
  exists new,
    calls (snd (snd (_post srv json_loads endpoint data kwargs (self, net))))
    = (calls net
         ++ mk_call sid POST (_url self ++ endpoint) data
                    (request_kwargs self kwargs) :: new)%list.
Proof.
  intros Hs. unfold _post.
  destruct (_request_sends srv json_loads endpoint "post" data _ 0 kwargs
              self net eq_refl) as (res & s & new & m & Heq & _ & Hfirst).
  destruct (Hfirst sid Hs) as [new' ->]. exists new'. rewrite Heq. reflexivity.
Qed.

Lemma _get_first_call self net sid endpoint kwargs :
  _session self = Some sid ->
  exists new,
    calls (snd (snd (_get srv json_loads endpoint kwargs (self, net))))
    = (calls net
         ++ mk_call sid GET (_url self ++ endpoint) VNone
                    (request_kwargs self kwargs) :: new)%list.
Proof.
  intros Hs. unfold _get.
  destruct (_request_sends srv json_loads endpoint "get" VNone _ 0 kwargs
              self net eq_refl) as (res & s & new & m & Heq & _ & Hfirst).
  destruct (Hfirst sid Hs) as [new' ->]. exists new'. rewrite Heq. reflexivity.
Qed.

(** A batch target the normaliser rejects stops the command before anything
    is sent: the error comes back and the client and the record of calls are
    as they were. *)
Theorem batch_target_rejected_sends_nothing (v category : pyval) (b : bool)
    (e : exn) (st : state) :
  _process_infohash_list v = Raise e ->
  pause_multiple srv json_loads v st = (Raise e, st) /\
  set_category srv json_loads v category st = (Raise e, st) /\
  _delete srv json_loads v b st = (Raise e, st).
Proof.
  intros H. unfold pause_multiple, set_category, _delete, bind, lift.
  rewrite H. repeat split.
Qed.

(** [delete] asks the service to keep the files and [delete_permanently] to
    remove them: the first call each sends is a POST to torrents/delete whose
    data are the normalised target and the flag, "false" or "true". *)
Theorem delete_sends_flag (self : t) (net : transport) (sid : nat)
    (v : pyval) (data : gmap string pyval) :
  _session self = Some sid ->
  _process_infohash_list v = Return data ->
  (exists new,
     calls (snd (snd (delete srv json_loads v (self, net))))
     = (calls net
          ++ mk_call sid POST (_url self ++ "torrents/delete")
                     (VDict (<["deleteFiles" := VStr "false"]> data))
                     (request_kwargs self ∅) :: new)%list) /\
  (exists new,
     calls (snd (snd (delete_permanently srv json_loads v (self, net))))
     = (calls net
          ++ mk_call sid POST (_url self ++ "torrents/delete")
                     (VDict (<["deleteFiles" := VStr "true"]> data))
                     (request_kwargs self ∅) :: new)%list).
Proof.
  intros Hs Hd. unfold delete, delete_permanently, _delete, bind, lift.
  rewrite Hd. split; apply _post_first_call; exact Hs.
Qed.

(** The ways to pause agree: [pause] of one hash is [pause_multiple] of that
    hash, [pause_all] is [pause_multiple] of "all", and the case of the hash
    makes no difference.  The same holds of [delete_all] and [delete]. *)
Theorem pause_variants_agree (h : string) (st : state) :
  pause srv json_loads (VStr h) st
  = pause_multiple srv json_loads (VStr h) st /\
  pause_all srv json_loads st
  = pause_multiple srv json_loads (VStr "all") st /\
  pause srv json_loads (VStr (str_lower h)) st
  = pause srv json_loads (VStr h) st /\
  pause_multiple srv json_loads (VList [VStr h]) st
  = pause srv json_loads (VStr h) st /\
  delete_all srv json_loads st = delete srv json_loads (VStr "all") st.
Proof.
  repeat split.
  unfold pause, bind, lift, py_lower. rewrite str_lower_idem. reflexivity.
Qed.

(** [get_torrent] asks for the properties of the lower-cased hash, whatever
    the case it was given in; with a value that has no method [lower] it
    raises [AttributeError] and sends nothing. *)
Theorem get_torrent_sends (self : t) (net : transport) (sid : nat)
    (infohash : pyval) :
  _session self = Some sid ->
  (forall h, infohash = VStr h ->
     exists new,
       calls (snd (snd (get_torrent srv json_loads infohash (self, net))))
       = (calls net
            ++ mk_call sid GET
                 (_url self ++ "torrents/properties?hash=" ++ str_lower h)
                 VNone (request_kwargs self ∅) :: new)%list) /\
  (has_no_lower infohash = true ->
   get_torrent srv json_loads infohash (self, net)
   = (Raise AttributeError, (self, net))).
Proof.
  intros Hs. split.
  - intros h ->. unfold get_torrent, bind, lift, py_lower.
    apply _get_first_call. exact Hs.
  - intros Hn. destruct infohash; try discriminate Hn; reflexivity.
Qed.

(** What [set_file_priority] does once the priority has passed: a file id
    that is not an [int] raises [TypeError], a hash without a method [lower]
    raises [AttributeError], both with nothing sent; for a string hash its
    first call is a POST to torrents/filePrio with the lower-cased hash, the
    id and the priority. *)
Theorem set_file_priority_outcomes (self : t) (net : transport) (sid : nat)
    (infohash file_id priority : pyval) :
  _session self = Some sid ->
  py_in_ints priority [0; 1; 2; 4; 6; 7] = true ->
  let out := set_file_priority srv json_loads infohash file_id priority
                               (self, net) in
  (isinstance_int file_id = false ->
   out = (Raise (TypeError "File ID must be an int"), (self, net))) /\
  (isinstance_int file_id = true -> has_no_lower infohash = true ->
   out = (Raise AttributeError, (self, net))) /\
  (isinstance_int file_id = true ->
   forall h, infohash = VStr h ->
     exists new,
       calls (snd (snd out))
       = (calls net
            ++ mk_call sid POST (_url self ++ "torrents/filePrio")
                 (VDict (<["hash" := VStr (str_lower h)]>
                         (<["id" := file_id]>
                          (<["priority" := priority]> ∅))))
                 (request_kwargs self ∅) :: new)%list).
Proof.
  intros Hs Hp out. subst out. unfold set_file_priority. rewrite Hp.
  simpl negb. cbv iota. split; [|split].
  - intros ->. reflexivity.
  - intros -> Hn. simpl negb. cbv iota.
    destruct infohash; try discriminate Hn; reflexivity.
  - intros -> h ->. simpl negb. cbv iota. unfold bind, lift, py_lower.
    apply _post_first_call. exact Hs.
Qed.

End Commands.

Lemma batch_target_rejected_sends_nothing_witness :
  pause_multiple accept_all toy_loads (VList [VStr "ab12"; VInt 7])
                 (stub_state accept_all)
  = (Raise AttributeError, stub_state accept_all).
Proof.
  apply (batch_target_rejected_sends_nothing accept_all toy_loads
           (VList [VStr "ab12"; VInt 7]) VNone false AttributeError
           (stub_state accept_all)).
  reflexivity.
Defined.

Lemma delete_sends_flag_witness :
  exists new,
    calls (snd (snd (delete accept_all toy_loads (VStr "AB12")
                            (stub_state accept_all))))
    = (calls (snd (stub_state accept_all))
         ++ mk_call 0 POST "http://h/api/v2/torrents/delete"
              (VDict (<["deleteFiles" := VStr "false"]>
                      {[ "hashes" := VStr "ab12" ]}))
              (request_kwargs (fst (stub_state accept_all)) ∅) :: new)%list.
Proof.
  exact (proj1 (delete_sends_flag accept_all toy_loads
                  (fst (stub_state accept_all)) (snd (stub_state accept_all))
                  0%nat (VStr "AB12") {[ "hashes" := VStr "ab12" ]}
                  eq_refl eq_refl)).
Defined.

Lemma get_torrent_sends_witness :
  get_torrent accept_all toy_loads (VInt 7) (stub_state accept_all)
  = (Raise AttributeError, stub_state accept_all).
Proof.
  refine (proj2 (get_torrent_sends accept_all toy_loads
                   (fst (stub_state accept_all)) (snd (stub_state accept_all))
                   0%nat (VInt 7) eq_refl) eq_refl).
Defined.

Lemma set_file_priority_outcomes_witness :
  set_file_priority accept_all toy_loads (VStr "AB12") (VStr "0") (VBool true)
                    (stub_state accept_all)
  = (Raise (TypeError "File ID must be an int"), stub_state accept_all).
Proof.
  exact (proj1 (set_file_priority_outcomes accept_all toy_loads
                  (fst (stub_state accept_all)) (snd (stub_state accept_all))
                  0%nat (VStr "AB12") (VStr "0") (VBool true)
                  eq_refl eq_refl) eq_refl).
Defined.

(** ** What listing and adding torrents send *)

Lemma link_accepted_options (link : pyval) (kwargs : gmap string pyval) :
  link_accepted link = true ->
  exists options, download_from_link_options link kwargs = Return options.
Proof.
  intros H. destruct link; try (eexists; reflexivity).
  assert (Hl : exists ss : list string, l = VStr <$> ss).
  { simpl in H. induction l as [|v l IH]; [exists []; reflexivity|].
    simpl in H. apply andb_prop in H as [Hv H].
    destruct v; try discriminate Hv.
    destruct (IH H) as [ss ->]. exists (s :: ss). reflexivity. }
  destruct Hl as [ss ->]. unfold download_from_link_options.
  rewrite omap_py_str_item_strs. eexists; reflexivity.
Qed.

Lemma omap_py_str_item_raises (l : list pyval) :
  Exists (fun v => isinstance_str v = false) l ->
  exists msg, omap py_str_item l = Raise (TypeError msg).
Proof.
  induction 1 as [x l Hx | x l _ [msg IH]]; cbn [omap].
  - destruct x; try discriminate Hx; eexists; reflexivity.
  - destruct x; try (eexists; reflexivity). cbv [py_str_item obind].
    fold py_str_item. fold (omap py_str_item l). rewrite IH.
    eexists; reflexivity.
Qed.

Section Sent.

Variable srv : server.
Variable json_loads : string -> option pyval.

(** [torrents] sends the filters as the query of a GET to torrents/info,
    each under its own name except that [status] goes under [filter]: when
    no two filters get the same name this way, the query holds a value under
    a name exactly when a filter of that name, so renamed, was given with
    that value. *)
Theorem torrents_sends_filters (self : t) (net : transport) (sid : nat)
    (filters : list (string * pyval)) :
  _session self = Some sid ->
  NoDup (filter_name <$> filters.*1) ->
  exists params new,
    calls (snd (snd (torrents srv json_loads filters (self, net))))
    = (calls net
         ++ mk_call sid GET (_url self ++ "torrents/info") VNone
              (request_kwargs self {[ "params" := VDict params ]})
         :: new)%list /\
    forall k v,
      params !! k = Some v <->
      exists name, (name, v) ∈ filters /\ filter_name name = k.
Proof.
  intros Hs Hnd. exists (torrents_params filters).
  destruct (_get_first_call srv json_loads self net sid "torrents/info"
              {[ "params" := VDict (torrents_params filters) ]} Hs)
    as [new Hnew].
  exists new. split; [exact Hnew|].
  apply torrents_params_lookup. exact Hnd.
Qed.

(** The query [torrents] sends never has a parameter named [status],
    whatever filters are given; and the filter given last is in it under its
    name, so of a [status] and a [filter] given together the later one is
    sent. *)
Theorem torrents_never_sends_status (self : t) (net : transport) (sid : nat)
    (filters : list (string * pyval)) :
  _session self = Some sid ->
  exists params new,
    calls (snd (snd (torrents srv json_loads filters (self, net))))
    = (calls net
         ++ mk_call sid GET (_url self ++ "torrents/info") VNone
              (request_kwargs self {[ "params" := VDict params ]})
         :: new)%list /\
    params !! "status" = None /\
    forall earlier name value,
      filters = (earlier ++ [(name, value)])%list ->
      params !! filter_name name = Some value.
Proof.
  intros Hs. exists (torrents_params filters).
  destruct (_get_first_call srv json_loads self net sid "torrents/info"
              {[ "params" := VDict (torrents_params filters) ]} Hs)
    as [new Hnew].
  exists new. split; [exact Hnew|]. split.
  - apply torrents_params_status.
  - intros earlier name value ->. apply torrents_params_status.
Qed.

(** [download_from_link] posts to torrents/add, with the dummy file, the
    caller's options changed in two places only: [urls], and [savepath].  A
    [savepath] that counts as true is sent as given; failing that, a
    [save_path] that counts as true is sent as [savepath] too; and if
    [save_path] does not count as true [savepath] is sent as given. *)
Theorem download_from_link_sends_savepath (self : t) (net : transport)
    (sid : nat) (link : pyval) (kwargs : gmap string pyval) :
  _session self = Some sid ->
  link_accepted link = true ->
  exists options new,
    calls (snd (snd (download_from_link srv json_loads link kwargs
                                        (self, net))))
    = (calls net
         ++ mk_call sid POST (_url self ++ "torrents/add") (VDict options)
              (request_kwargs self
                 {[ "files" :=
                      VDict {[ "_dummy" := VTuple [VNone; VStr "_dummy"] ]} ]})
         :: new)%list /\
    (py_truthy (dict_get kwargs "savepath") = true ->
     options !! "savepath" = kwargs !! "savepath") /\
    (py_truthy (dict_get kwargs "savepath") = false ->
     py_truthy (dict_get kwargs "save_path") = true ->
     options !! "savepath" = kwargs !! "save_path") /\
    (py_truthy (dict_get kwargs "save_path") = false ->
     options !! "savepath" = kwargs !! "savepath") /\
    (forall k, k <> "urls" -> k <> "savepath" -> options !! k = kwargs !! k).
Proof.
  intros Hs Hl.
  destruct (link_accepted_options link kwargs Hl) as [options Ho].
  exists options.
  unfold download_from_link, bind, lift. rewrite Ho.
  destruct (_post_first_call srv json_loads self net sid "torrents/add"
              (VDict options)
              {[ "files" :=
                   VDict {[ "_dummy" := VTuple [VNone; VStr "_dummy"] ]} ]} Hs)
    as [new Hnew].
  exists new. split; [exact Hnew|].
  apply (download_from_link_savepath link). exact Ho.
Qed.

(** [download_from_link] sends a list of string links as one [urls] value,
    the links joined by line feeds, and a link that is not a list as it is,
    whatever [urls] the caller gave; a list that holds something other than a
    string raises [TypeError], and nothing is sent. *)
Theorem download_from_link_sends_urls (self : t) (net : transport)
    (sid : nat) (kwargs : gmap string pyval) :
  _session self = Some sid ->
  (forall link,
     link_accepted link = true ->
     exists options new,
       calls (snd (snd (download_from_link srv json_loads link kwargs
                                           (self, net))))
       = (calls net
            ++ mk_call sid POST (_url self ++ "torrents/add") (VDict options)
                 (request_kwargs self
                    {[ "files" :=
                         VDict {[ "_dummy"
                                  := VTuple [VNone; VStr "_dummy"] ]} ]})
            :: new)%list /\
       (forall ss : list string,
          link = VList (VStr <$> ss) ->
          options !! "urls" = Some (VStr (str_join newline ss))) /\
       ((forall l, link <> VList l) -> options !! "urls" = Some link)) /\
  (forall l,
     Exists (fun v => isinstance_str v = false) l ->
     exists msg,
       download_from_link srv json_loads (VList l) kwargs (self, net)
       = (Raise (TypeError msg), (self, net))).
Proof.
  intros Hs. split.
  - intros link Hl.
    destruct (link_accepted_options link kwargs Hl) as [options Ho].
    exists options.
    unfold download_from_link, bind, lift. rewrite Ho.
    destruct (_post_first_call srv json_loads self net sid "torrents/add"
                (VDict options)
                {[ "files" :=
                     VDict {[ "_dummy" := VTuple [VNone; VStr "_dummy"] ]} ]}
                Hs) as [new Hnew].
    exists new. split; [exact Hnew|]. split.
    + intros ss ->. unfold download_from_link_options in Ho.
      rewrite omap_py_str_item_strs in Ho. cbv [obind] in Ho.
      apply Return_inj in Ho. subst options. apply lookup_insert_eq.
    + intros Hn. unfold download_from_link_options in Ho.
      destruct link; try (apply Return_inj in Ho; subst options;
                          apply lookup_insert_eq).
      exfalso. eapply Hn. reflexivity.
  - intros l Hl. destruct (omap_py_str_item_raises l Hl) as [msg Hmsg].
    exists msg. unfold download_from_link, bind, lift,
      download_from_link_options.
    rewrite Hmsg. reflexivity.
Qed.

(** [download_from_file] posts a list of file buffers to torrents/add with
    the [i]-th file under the key [torrents] followed by [i] in decimal:
    every file of the list is sent, nothing else is, and no two files share a
    key. *)
Theorem download_from_file_sends_files (self : t) (net : transport)
    (sid : nat) (l : list pyval) (kwargs : gmap string pyval) :
  _session self = Some sid ->
  exists data files new,
    calls (snd (snd (download_from_file srv json_loads (VList l) kwargs
                                        (self, net))))
    = (calls net
         ++ mk_call sid POST (_url self ++ "torrents/add") (VDict data)
              (request_kwargs self {[ "files" := VDict files ]})
         :: new)%list /\
    (forall i, files !! torrents_key i = l !! i) /\
    (forall k f, files !! k = Some f ->
                 exists i, k = torrents_key i /\ l !! i = Some f) /\
    size files = List.length l.
Proof.
  intros Hs.
  exists (download_from_file_data kwargs), (download_from_file_files (VList l)).
  destruct (_post_first_call srv json_loads self net sid "torrents/add"
              (VDict (download_from_file_data kwargs))
              {[ "files" := VDict (download_from_file_files (VList l)) ]} Hs)
    as [new Hnew].
  exists new. split; [exact Hnew|]. apply download_from_file_files_lookup.
Qed.

(** The two ways of adding a torrent treat the old [save_path] differently
    when the caller also gives a [savepath], both counting as true: the data
    [download_from_file] posts have the [save_path] as [savepath], the data
    [download_from_link] posts keep the [savepath]. *)
Theorem download_savepath_differs (self : t) (net : transport) (sid : nat)
    (file_buffer link v w : pyval) (kwargs : gmap string pyval) :
  _session self = Some sid ->
  link_accepted link = true ->
  kwargs !! "save_path" = Some v -> py_truthy v = true ->
  kwargs !! "savepath" = Some w -> py_truthy w = true ->
  (exists data files new,
     calls (snd (snd (download_from_file srv json_loads file_buffer kwargs
                                         (self, net))))
     = (calls net
          ++ mk_call sid POST (_url self ++ "torrents/add") (VDict data)
               (request_kwargs self {[ "files" := VDict files ]})
          :: new)%list /\
     data !! "savepath" = Some v) /\
  (exists options files new,
     calls (snd (snd (download_from_link srv json_loads link kwargs
                                         (self, net))))
     = (calls net
          ++ mk_call sid POST (_url self ++ "torrents/add") (VDict options)
               (request_kwargs self {[ "files" := VDict files ]})
          :: new)%list /\
     options !! "savepath" = Some w).
Proof.
  intros Hs Hl Hv Tv Hw Tw. split.
  - exists (download_from_file_data kwargs),
      (download_from_file_files file_buffer).
    destruct (_post_first_call srv json_loads self net sid "torrents/add"
                (VDict (download_from_file_data kwargs))
                {[ "files" := VDict (download_from_file_files file_buffer) ]}
                Hs) as [new Hnew].
    exists new. split; [exact Hnew|].
    unfold download_from_file_data, dict_get. rewrite Hv. simpl default.
    rewrite Tv. apply lookup_insert_eq.
  - destruct (link_accepted_options link kwargs Hl) as [options Ho].
    exists options, {[ "_dummy" := VTuple [VNone; VStr "_dummy"] ]}.
    unfold download_from_link, bind, lift. rewrite Ho.
    destruct (_post_first_call srv json_loads self net sid "torrents/add"
                (VDict options)
                {[ "files" :=
                     VDict {[ "_dummy" := VTuple [VNone; VStr "_dummy"] ]} ]}
                Hs) as [new Hnew].
    exists new. split; [exact Hnew|].
    apply download_from_link_options_inv in Ho as [urls ->].
    rewrite lookup_insert_ne by discriminate.
    replace (py_truthy (dict_get kwargs "savepath")) with true
      by (unfold dict_get; rewrite Hw; symmetry; exact Tw).
    rewrite andb_false_r. exact Hw.
Qed.

End Sent.

Lemma torrents_sends_filters_witness :
  exists params new,
    calls (snd (snd (torrents accept_all toy_loads
                       [("status", VStr "paused"); ("sort", VStr "ratio")]
                       (stub_state accept_all))))
    = (calls (snd (stub_state accept_all))
         ++ mk_call 0 GET "http://h/api/v2/torrents/info" VNone
              (request_kwargs (fst (stub_state accept_all))
                              {[ "params" := VDict params ]})
         :: new)%list /\
    forall k v,
      params !! k = Some v <->
      exists name,
        (name, v) ∈ [("status", VStr "paused"); ("sort", VStr "ratio")] /\
        filter_name name = k.
Proof.
  refine (torrents_sends_filters accept_all toy_loads
            (fst (stub_state accept_all)) (snd (stub_state accept_all)) 0%nat
            [("status", VStr "paused"); ("sort", VStr "ratio")] eq_refl _).
  apply NoDup_cons_2; [|apply NoDup_singleton].
  intros H. apply list_elem_of_singleton in H. discriminate H.
Defined.

Lemma torrents_never_sends_status_witness :
  exists params new,
    calls (snd (snd (torrents accept_all toy_loads
                       [("filter", VStr "active"); ("status", VStr "paused")]
                       (stub_state accept_all))))
    = (calls (snd (stub_state accept_all))
         ++ mk_call 0 GET "http://h/api/v2/torrents/info" VNone
              (request_kwargs (fst (stub_state accept_all))
                              {[ "params" := VDict params ]})
         :: new)%list /\
    params !! "status" = None /\
    forall earlier name value,
      [("filter", VStr "active"); ("status", VStr "paused")]
      = (earlier ++ [(name, value)])%list ->
      params !! filter_name name = Some value.
Proof.
  exact (torrents_never_sends_status accept_all toy_loads
           (fst (stub_state accept_all)) (snd (stub_state accept_all)) 0%nat
           [("filter", VStr "active"); ("status", VStr "paused")] eq_refl).
Defined.

Lemma download_from_link_sends_savepath_witness :
  exists options new,
    calls (snd (snd (download_from_link accept_all toy_loads
                       (VStr "magnet:?xt=1") {[ "save_path" := VStr "/data" ]}
                       (stub_state accept_all))))
    = (calls (snd (stub_state accept_all))
         ++ mk_call 0 POST "http://h/api/v2/torrents/add" (VDict options)
              (request_kwargs (fst (stub_state accept_all))
                 {[ "files" :=
                      VDict {[ "_dummy" := VTuple [VNone; VStr "_dummy"] ]} ]})
         :: new)%list /\
    options !! "savepath" = Some (VStr "/data").
Proof.
  destruct (download_from_link_sends_savepath accept_all toy_loads
              (fst (stub_state accept_all)) (snd (stub_state accept_all))
              0%nat (VStr "magnet:?xt=1") {[ "save_path" := VStr "/data" ]}
              eq_refl eq_refl)
    as (options & new & Hcalls & _ & Hcopy & _).
  exists options, new. split; [exact Hcalls|].
  exact (Hcopy eq_refl eq_refl).
Defined.

Lemma download_from_link_sends_urls_witness :
  exists msg,
    download_from_link accept_all toy_loads
      (VList [VStr "magnet:?xt=1"; VInt 7]) ∅ (stub_state accept_all)
    = (Raise (TypeError msg), stub_state accept_all).
Proof.
  refine (proj2 (download_from_link_sends_urls accept_all toy_loads
                   (fst (stub_state accept_all))
                   (snd (stub_state accept_all)) 0%nat ∅ eq_refl)
                [VStr "magnet:?xt=1"; VInt 7] _).
  apply Exists_cons_tl, Exists_cons_hd. reflexivity.
Defined.

Lemma download_from_file_sends_files_witness :
  exists data files new,
    calls (snd (snd (download_from_file accept_all toy_loads
                       (VList [VStr "first"; VStr "second"]) ∅
                       (stub_state accept_all))))
    = (calls (snd (stub_state accept_all))
         ++ mk_call 0 POST "http://h/api/v2/torrents/add" (VDict data)
              (request_kwargs (fst (stub_state accept_all))
                              {[ "files" := VDict files ]})
         :: new)%list /\
    (forall i, files !! torrents_key i
               = [VStr "first"; VStr "second"] !! i) /\
    (forall k f, files !! k = Some f ->
                 exists i, k = torrents_key i /\
                           [VStr "first"; VStr "second"] !! i = Some f) /\
    size files = 2%nat.
Proof.
  exact (download_from_file_sends_files accept_all toy_loads
           (fst (stub_state accept_all)) (snd (stub_state accept_all)) 0%nat
           [VStr "first"; VStr "second"] ∅ eq_refl).
Defined.

Lemma download_savepath_differs_witness :
  (exists data files new,
     calls (snd (snd (download_from_file accept_all toy_loads (VStr "file")
                        (<["save_path" := VStr "/old"]>
                           {[ "savepath" := VStr "/new" ]})
                        (stub_state accept_all))))
     = (calls (snd (stub_state accept_all))
          ++ mk_call 0 POST "http://h/api/v2/torrents/add" (VDict data)
               (request_kwargs (fst (stub_state accept_all))
                               {[ "files" := VDict files ]})
          :: new)%list /\
     data !! "savepath" = Some (VStr "/old")) /\
  (exists options files new,
     calls (snd (snd (download_from_link accept_all toy_loads
                        (VStr "magnet:?xt=1")
                        (<["save_path" := VStr "/old"]>
                           {[ "savepath" := VStr "/new" ]})
                        (stub_state accept_all))))
     = (calls (snd (stub_state accept_all))
          ++ mk_call 0 POST "http://h/api/v2/torrents/add" (VDict options)
               (request_kwargs (fst (stub_state accept_all))
                               {[ "files" := VDict files ]})
          :: new)%list /\
     options !! "savepath" = Some (VStr "/new")).
Proof.
  exact (download_savepath_differs accept_all toy_loads
           (fst (stub_state accept_all)) (snd (stub_state accept_all)) 0%nat
           (VStr "file") (VStr "magnet:?xt=1") (VStr "/old") (VStr "/new")
           (<["save_path" := VStr "/old"]> {[ "savepath" := VStr "/new" ]})
           eq_refl eq_refl eq_refl eq_refl eq_refl eq_refl).
Defined.
